(** * GitHub automation data models

    A shallow embedding of [apps/backend/runners/github/models.py]: the
    string-backed enumerations, the four record types with their
    [to_dict] / [from_dict] codecs, the JSON files they are saved to and
    loaded from, the two hand-rolled index files, and the runner
    configuration with its secret-free settings file. *)

From Stdlib Require Import ZArith String List Bool Lia DecimalString.
From Stdlib Require Import Floats.SpecFloat.
From stdpp Require Import base option list strings gmap.

Local Open Scope string_scope.
Local Open Scope Z_scope.

(** ** Python values

    The values that flow through the module are the ones [json.load] can
    produce and [json.dump] can consume.  A dataclass does not check its
    field annotations, so a record field that the code only passes through
    holds an arbitrary such value.  A [dict] keeps its insertion order,
    which is the key order of the written file; it is an association list
    whose operations below keep the keys distinct. *)

#[local] Unset Elimination Schemes.
Inductive pyval : Type :=
| PNone
| PBool (b : bool)
| PInt (n : Z)
| PFloat (x : spec_float)
| PStr (s : string)
| PList (l : list pyval)
| PDict (d : list (string * pyval)).
#[local] Set Elimination Schemes.

(** The exceptions the module can raise.  [KeyError] is the spec's
    MissingField and [ValueError] its InvalidEnumValue: the first carries
    the missing key, the second the offending value and the name of the
    enumeration class that rejected it. *)

Inductive exn : Type :=
| KeyError (key : string)
| ValueError (value : pyval) (cls : string)
| TypeError
| AttributeError
| JSONDecodeError
| FileNotFoundError.

Inductive result (A : Type) : Type :=
| Ok (a : A)
| Raise (e : exn).

Arguments Ok {A} a.
Arguments Raise {A} e.

#[global] Instance result_ret : MRet result := fun _ a => Ok a.
#[global] Instance result_bind : MBind result := fun _ _ f m =>
  match m with
  | Ok a => f a
  | Raise e => Raise e
  end.

Definition is_ok {A} (r : result A) : bool :=
  match r with Ok _ => true | Raise _ => false end.

(** ** dict operations *)

Module Dict.

Fixpoint get (k : string) (d : list (string * pyval)) : option pyval :=
  match d with
  | [] => None
  | (k', v) :: d' => if String.eqb k k' then Some v else get k d'
  end.

(** [d[k] = v]: an existing key keeps its position. *)
Fixpoint set (k : string) (v : pyval) (d : list (string * pyval))
  : list (string * pyval) :=
  match d with
  | [] => [(k, v)]
  | (k', v') :: d' =>
      if String.eqb k k' then (k, v) :: d' else (k', v') :: set k v d'
  end.

(** [d.pop(k, None)], the mapping that is left. *)
Fixpoint pop (k : string) (d : list (string * pyval))
  : list (string * pyval) :=
  match d with
  | [] => []
  | (k', v') :: d' =>
      if String.eqb k k' then d' else (k', v') :: pop k d'
  end.

Definition keys (d : list (string * pyval)) : list string := map fst d.

End Dict.

(** ** Operations of the Python runtime used by the module *)

(** [v[k]] with a string key: only a dict can be subscripted by one. *)
Definition py_getitem (v : pyval) (k : string) : result pyval :=
  match v with
  | PDict d =>
      match Dict.get k d with
      | Some x => Ok x
      | None => Raise (KeyError k)
      end
  | _ => Raise TypeError
  end.

(** [v.get(k, default)]: only a dict has the method. *)
Definition py_get (v : pyval) (k : string) (dflt : pyval) : result pyval :=
  match v with
  | PDict d => Ok (default dflt (Dict.get k d))
  | _ => Raise AttributeError
  end.

(** [for x in v]: a list yields its elements, a dict its keys, a string
    its characters; nothing else is iterable. *)
Fixpoint chars (s : string) : list pyval :=
  match s with
  | EmptyString => []
  | String c s' => PStr (String c EmptyString) :: chars s'
  end.

Definition py_iter (v : pyval) : result (list pyval) :=
  match v with
  | PList l => Ok l
  | PDict d => Ok (map PStr (Dict.keys d))
  | PStr s => Ok (chars s)
  | _ => Raise TypeError
  end.

(** [v.append(x)], the list afterwards: only a list has the method. *)
Definition py_append (v x : pyval) : result pyval :=
  match v with
  | PList l => Ok (PList (l ++ [x]))
  | _ => Raise AttributeError
  end.

(** Truth value of [v] in a condition. *)
Definition py_truthy (v : pyval) : bool :=
  match v with
  | PNone => false
  | PBool b => b
  | PInt n => negb (n =? 0)
  | PFloat (S754_zero _) => false
  | PFloat _ => true
  | PStr s => negb (String.eqb s "")
  | PList l => negb (Nat.eqb (length l) 0)
  | PDict d => negb (Nat.eqb (length d) 0)
  end.

(** Numbers compare by exact value across [bool], [int] and [float].  A
    finite number is [m * 2^e]; two of them are equal when their
    mantissas agree once brought to the smaller exponent. *)
Inductive number : Type :=
| Dyadic (m e : Z)
| Infinite (negative : bool)
| NotANumber.

Definition float_number (x : spec_float) : number :=
  match x with
  | S754_zero _ => Dyadic 0 0
  | S754_infinity s => Infinite s
  | S754_nan => NotANumber
  | S754_finite s m e => Dyadic (if s then Z.neg m else Z.pos m) e
  end.

Definition number_eqb (a b : number) : bool :=
  match a, b with
  | Dyadic m1 e1, Dyadic m2 e2 =>
      let e := Z.min e1 e2 in
      (m1 * 2 ^ (e1 - e) =? m2 * 2 ^ (e2 - e))
  | Infinite s1, Infinite s2 => Bool.eqb s1 s2
  | _, _ => false
  end.

Definition as_number (v : pyval) : option number :=
  match v with
  | PBool b => Some (Dyadic (if b then 1 else 0) 0)
  | PInt n => Some (Dyadic n 0)
  | PFloat x => Some (float_number x)
  | _ => None
  end.

(** [a == b] *)
Fixpoint py_eq (a b : pyval) : bool :=
  match a, b with
  | PNone, PNone => true
  | PStr s, PStr t => String.eqb s t
  | PList l, PList m =>
      (fix all2 (l m : list pyval) : bool :=
         match l, m with
         | [], [] => true
         | x :: l', y :: m' => py_eq x y && all2 l' m'
         | _, _ => false
         end) l m
  | PDict d, PDict d' =>
      Nat.eqb (length d) (length d') &&
      (fix all (d : list (string * pyval)) : bool :=
         match d with
         | [] => true
         | (k, v) :: r =>
             match Dict.get k d' with
             | Some w => py_eq v w && all r
             | None => false
             end
         end) d
  | _, _ =>
      match as_number a, as_number b with
      | Some x, Some y => number_eqb x y
      | _, _ => false
      end
  end.


(** [v[k] = x]: only a dict (or a list, by an integer) supports item
    assignment; the keys here are strings. *)
Definition py_setitem (v : pyval) (k : string) (x : pyval) : result pyval :=
  match v with
  | PDict d => Ok (PDict (Dict.set k x d))
  | _ => Raise TypeError
  end.

(** A comprehension [[f(x) for x in l]]: left to right, the first
    exception ends it. *)
Fixpoint traverse {A B} (f : A -> result B) (l : list A) : result (list B) :=
  match l with
  | [] => Ok []
  | x :: l' => y ← f x; ys ← traverse f l'; Ok (y :: ys)
  end.

(** [next((x for x in l if cond(x)), None)]: the first element that passes
    the condition; elements after it are not looked at. *)
Fixpoint next_where (cond : pyval -> result bool) (l : list pyval)
  : result (option pyval) :=
  match l with
  | [] => Ok None
  | x :: l' => b ← cond x; if b : bool then Ok (Some x) else next_where cond l'
  end.

(** The runtime's [format(v)], which an f-string applies to an
    interpolated value.  The module only uses it to build file names. *)
Class Runtime := format_value : pyval -> string.

(** ** Enumerations

    A [str]-backed [Enum]: calling the class on a value looks the value up
    among the members' values and raises [ValueError] when there is none. *)

Definition enum_call {E} (cls : string) (value : E -> string)
    (members : list E) (v : pyval) : result E :=
  match v with
  | PStr s =>
      match find (fun m => String.eqb (value m) s) members with
      | Some m => Ok m
      | None => Raise (ValueError v cls)
      end
  | _ => Raise (ValueError v cls)
  end.

Module ReviewSeverity.
Inductive t := CRITICAL | HIGH | MEDIUM | LOW.
Definition value (m : t) : string :=
  match m with
  | CRITICAL => "critical"
  | HIGH => "high"
  | MEDIUM => "medium"
  | LOW => "low"
  end.
Definition members : list t := [CRITICAL; HIGH; MEDIUM; LOW].
Definition call : pyval -> result t :=
  enum_call "ReviewSeverity" value members.
End ReviewSeverity.

Module ReviewCategory.
Inductive t :=
  SECURITY | QUALITY | STYLE | TEST | DOCS | PATTERN | PERFORMANCE.
Definition value (m : t) : string :=
  match m with
  | SECURITY => "security"
  | QUALITY => "quality"
  | STYLE => "style"
  | TEST => "test"
  | DOCS => "docs"
  | PATTERN => "pattern"
  | PERFORMANCE => "performance"
  end.
Definition members : list t :=
  [SECURITY; QUALITY; STYLE; TEST; DOCS; PATTERN; PERFORMANCE].
Definition call : pyval -> result t :=
  enum_call "ReviewCategory" value members.
End ReviewCategory.

Module TriageCategory.
Inductive t :=
  BUG | FEATURE | DOCUMENTATION | QUESTION | DUPLICATE | SPAM | FEATURE_CREEP.
Definition value (m : t) : string :=
  match m with
  | BUG => "bug"
  | FEATURE => "feature"
  | DOCUMENTATION => "documentation"
  | QUESTION => "question"
  | DUPLICATE => "duplicate"
  | SPAM => "spam"
  | FEATURE_CREEP => "feature_creep"
  end.
Definition members : list t :=
  [BUG; FEATURE; DOCUMENTATION; QUESTION; DUPLICATE; SPAM; FEATURE_CREEP].
Definition call : pyval -> result t :=
  enum_call "TriageCategory" value members.
End TriageCategory.

Module AutoFixStatus.
Inductive t :=
  PENDING | ANALYZING | CREATING_SPEC | BUILDING | QA_REVIEW | PR_CREATED
| COMPLETED | FAILED.
Definition value (m : t) : string :=
  match m with
  | PENDING => "pending"
  | ANALYZING => "analyzing"
  | CREATING_SPEC => "creating_spec"
  | BUILDING => "building"
  | QA_REVIEW => "qa_review"
  | PR_CREATED => "pr_created"
  | COMPLETED => "completed"
  | FAILED => "failed"
  end.
Definition members : list t :=
  [PENDING; ANALYZING; CREATING_SPEC; BUILDING; QA_REVIEW; PR_CREATED;
   COMPLETED; FAILED].
Definition call : pyval -> result t :=
  enum_call "AutoFixStatus" value members.
End AutoFixStatus.

(** ** The store

    [github_dir] is a [pathlib.Path]; [p / name] appends a component.  The
    store is modelled by its regular files.  A file holds either a JSON
    document, identified with the value [json.load] reads from it and
    [json.dump] wrote into it, or text that is not JSON.  Directory
    creation with [parents=True, exist_ok=True] leaves the regular files
    as they are, and I/O failures are outside the model.  An operation
    that raises is reported by its exception alone: the files it wrote
    before raising are not part of the result. *)

Abbreviation path := (list string).
Abbreviation dict := (list (string * pyval)).

Inductive content : Type :=
| Json (v : pyval)
| NotJson (text : string).

Abbreviation store := (gmap path content).

Definition joinpath (p : path) (name : string) : path := p ++ [name].
Infix "//" := joinpath (at level 40, left associativity).

Definition mkdir (p : path) (fs : store) : store := fs.

Definition exists_ (p : path) (fs : store) : bool := bool_decide (is_Some (fs !! p)).

(** [with open(p) as f: json.load(f)] *)
Definition json_load (p : path) (fs : store) : result pyval :=
  match fs !! p with
  | Some (Json v) => Ok v
  | Some (NotJson _) => Raise JSONDecodeError
  | None => Raise FileNotFoundError
  end.

(** [with open(p, "w") as f: json.dump(v, f, indent=2)] *)
Definition json_dump (v : pyval) (p : path) (fs : store) : store :=
  <[p := Json v]> fs.

(** ** PRReviewFinding *)

Module PRReviewFinding.

Record t := mk {
  id : pyval;
  severity : ReviewSeverity.t;
  category : ReviewCategory.t;
  title : pyval;
  description : pyval;
  file : pyval;
  line : pyval;
  end_line : pyval;
  suggested_fix : pyval;
  fixable : pyval;
}.

Definition to_dict (self : t) : dict :=
  [ ("id", id self);
    ("severity", PStr (ReviewSeverity.value (severity self)));
    ("category", PStr (ReviewCategory.value (category self)));
    ("title", title self);
    ("description", description self);
    ("file", file self);
    ("line", line self);
    ("end_line", end_line self);
    ("suggested_fix", suggested_fix self);
    ("fixable", fixable self) ].

Definition from_dict (data : pyval) : result t :=
  a_id ← py_getitem data "id";
  a_severity ← py_getitem data "severity" ≫= ReviewSeverity.call;
  a_category ← py_getitem data "category" ≫= ReviewCategory.call;
  a_title ← py_getitem data "title";
  a_description ← py_getitem data "description";
  a_file ← py_getitem data "file";
  a_line ← py_getitem data "line";
  a_end_line ← py_get data "end_line" PNone;
  a_suggested_fix ← py_get data "suggested_fix" PNone;
  a_fixable ← py_get data "fixable" (PBool false);
  Ok (mk a_id a_severity a_category a_title a_description a_file a_line
         a_end_line a_suggested_fix a_fixable).

(** The spec's invariant on a finding whose [line] and [end_line] have
    their declared types: a present [end_line] is at least [line]. *)
Definition end_line_invariant (self : t) : Prop :=
  forall l e : Z, line self = PInt l -> end_line self = PInt e -> l <= e.

End PRReviewFinding.

(** ** PRReviewResult *)

Module PRReviewResult.

Record t := mk {
  pr_number : pyval;
  repo : pyval;
  success : pyval;
  findings : list PRReviewFinding.t;
  summary : pyval;
  overall_status : pyval;
  review_id : pyval;
  reviewed_at : pyval;
  error : pyval;
}.

Definition to_dict (self : t) : dict :=
  [ ("pr_number", pr_number self);
    ("repo", repo self);
    ("success", success self);
    ("findings",
      PList (map (fun f => PDict (PRReviewFinding.to_dict f)) (findings self)));
    ("summary", summary self);
    ("overall_status", overall_status self);
    ("review_id", review_id self);
    ("reviewed_at", reviewed_at self);
    ("error", error self) ].

(** [now] is the reading of [datetime.now().isoformat()] taken for the
    default of [reviewed_at]. *)
Definition from_dict (now : string) (data : pyval) : result t :=
  a_pr_number ← py_getitem data "pr_number";
  a_repo ← py_getitem data "repo";
  a_success ← py_getitem data "success";
  v_findings ← py_get data "findings" (PList []);
  items ← py_iter v_findings;
  a_findings ← traverse PRReviewFinding.from_dict items;
  a_summary ← py_get data "summary" (PStr "");
  a_overall_status ← py_get data "overall_status" (PStr "comment");
  a_review_id ← py_get data "review_id" PNone;
  a_reviewed_at ← py_get data "reviewed_at" (PStr now);
  a_error ← py_get data "error" PNone;
  Ok (mk a_pr_number a_repo a_success a_findings a_summary a_overall_status
         a_review_id a_reviewed_at a_error).

(** The summary entry of the index. *)
Definition index_entry (self : t) : pyval :=
  PDict [ ("pr_number", pr_number self);
          ("repo", repo self);
          ("overall_status", overall_status self);
          ("findings_count", PInt (Z.of_nat (length (findings self))));
          ("reviewed_at", reviewed_at self) ].

(** [now] is the clock reading stamped into [last_updated]. *)
Definition _update_index (now : string) (self : t) (pr_dir : path)
    (fs : store) : result store :=
  let index_file := pr_dir // "index.json" in
  index ← (if exists_ index_file fs then json_load index_file fs
           else Ok (PDict [("reviews", PList []); ("last_updated", PNone)]));
  reviews ← py_get index "reviews" (PList []);
  let same r := (n ← py_getitem r "pr_number"; Ok (py_eq n (pr_number self))) in
  items ← py_iter reviews;
  existing ← next_where same items;
  let entry := index_entry self in
  reviews ← (if from_option py_truthy false existing
             then items ← py_iter reviews;
                  rs ← traverse (fun r => b ← same r;
                                          Ok (if b : bool then entry else r))
                                items;
                  Ok (PList rs)
             else py_append reviews entry);
  index ← py_setitem index "reviews" reviews;
  index ← py_setitem index "last_updated" (PStr now);
  Ok (json_dump index index_file fs).

Definition save `{Runtime} (now : string) (self : t) (github_dir : path)
    (fs : store) : result store :=
  let pr_dir := github_dir // "pr" in
  let fs := mkdir pr_dir fs in
  let review_file :=
    pr_dir // ("review_" ++ format_value (pr_number self) ++ ".json") in
  let fs := json_dump (PDict (to_dict self)) review_file fs in
  _update_index now self pr_dir fs.

Definition load `{Runtime} (now : string) (github_dir : path)
    (pr_number : pyval) (fs : store) : result (option t) :=
  let review_file :=
    github_dir // "pr" // ("review_" ++ format_value pr_number ++ ".json") in
  if negb (exists_ review_file fs) then Ok None
  else data ← json_load review_file fs;
       r ← from_dict now data;
       Ok (Some r).

End PRReviewResult.

(** ** TriageResult *)

Module TriageResult.

Record t := mk {
  issue_number : pyval;
  repo : pyval;
  category : TriageCategory.t;
  confidence : pyval;
  labels_to_add : pyval;
  labels_to_remove : pyval;
  is_duplicate : pyval;
  duplicate_of : pyval;
  is_spam : pyval;
  is_feature_creep : pyval;
  suggested_breakdown : pyval;
  priority : pyval;
  comment : pyval;
  triaged_at : pyval;
}.

Definition to_dict (self : t) : dict :=
  [ ("issue_number", issue_number self);
    ("repo", repo self);
    ("category", PStr (TriageCategory.value (category self)));
    ("confidence", confidence self);
    ("labels_to_add", labels_to_add self);
    ("labels_to_remove", labels_to_remove self);
    ("is_duplicate", is_duplicate self);
    ("duplicate_of", duplicate_of self);
    ("is_spam", is_spam self);
    ("is_feature_creep", is_feature_creep self);
    ("suggested_breakdown", suggested_breakdown self);
    ("priority", priority self);
    ("comment", comment self);
    ("triaged_at", triaged_at self) ].

Definition from_dict (now : string) (data : pyval) : result t :=
  a_issue_number ← py_getitem data "issue_number";
  a_repo ← py_getitem data "repo";
  a_category ← py_getitem data "category" ≫= TriageCategory.call;
  a_confidence ← py_getitem data "confidence";
  a_labels_to_add ← py_get data "labels_to_add" (PList []);
  a_labels_to_remove ← py_get data "labels_to_remove" (PList []);
  a_is_duplicate ← py_get data "is_duplicate" (PBool false);
  a_duplicate_of ← py_get data "duplicate_of" PNone;
  a_is_spam ← py_get data "is_spam" (PBool false);
  a_is_feature_creep ← py_get data "is_feature_creep" (PBool false);
  a_suggested_breakdown ← py_get data "suggested_breakdown" (PList []);
  a_priority ← py_get data "priority" (PStr "medium");
  a_comment ← py_get data "comment" PNone;
  a_triaged_at ← py_get data "triaged_at" (PStr now);
  Ok (mk a_issue_number a_repo a_category a_confidence a_labels_to_add
         a_labels_to_remove a_is_duplicate a_duplicate_of a_is_spam
         a_is_feature_creep a_suggested_breakdown a_priority a_comment
         a_triaged_at).

Definition save `{Runtime} (self : t) (github_dir : path) (fs : store)
  : store :=
  let issues_dir := github_dir // "issues" in
  let fs := mkdir issues_dir fs in
  let triage_file :=
    issues_dir // ("triage_" ++ format_value (issue_number self) ++ ".json") in
  json_dump (PDict (to_dict self)) triage_file fs.

Definition load `{Runtime} (now : string) (github_dir : path)
    (issue_number : pyval) (fs : store) : result (option t) :=
  let triage_file :=
    github_dir // "issues"
      // ("triage_" ++ format_value issue_number ++ ".json") in
  if negb (exists_ triage_file fs) then Ok None
  else data ← json_load triage_file fs;
       r ← from_dict now data;
       Ok (Some r).

End TriageResult.

(** ** AutoFixState *)

Module AutoFixState.

Record t := mk {
  issue_number : pyval;
  issue_url : pyval;
  repo : pyval;
  status : AutoFixStatus.t;
  spec_id : pyval;
  spec_dir : pyval;
  pr_number : pyval;
  pr_url : pyval;
  bot_comments : pyval;
  error : pyval;
  created_at : pyval;
  updated_at : pyval;
}.

Definition to_dict (self : t) : dict :=
  [ ("issue_number", issue_number self);
    ("issue_url", issue_url self);
    ("repo", repo self);
    ("status", PStr (AutoFixStatus.value (status self)));
    ("spec_id", spec_id self);
    ("spec_dir", spec_dir self);
    ("pr_number", pr_number self);
    ("pr_url", pr_url self);
    ("bot_comments", bot_comments self);
    ("error", error self);
    ("created_at", created_at self);
    ("updated_at", updated_at self) ].

(** [now_c] and [now_u] are the two clock readings taken for the
    defaults of [created_at] and [updated_at]. *)
Definition from_dict (now_c now_u : string) (data : pyval) : result t :=
  a_issue_number ← py_getitem data "issue_number";
  a_issue_url ← py_getitem data "issue_url";
  a_repo ← py_getitem data "repo";
  a_status ← py_get data "status" (PStr "pending") ≫= AutoFixStatus.call;
  a_spec_id ← py_get data "spec_id" PNone;
  a_spec_dir ← py_get data "spec_dir" PNone;
  a_pr_number ← py_get data "pr_number" PNone;
  a_pr_url ← py_get data "pr_url" PNone;
  a_bot_comments ← py_get data "bot_comments" (PList []);
  a_error ← py_get data "error" PNone;
  a_created_at ← py_get data "created_at" (PStr now_c);
  a_updated_at ← py_get data "updated_at" (PStr now_u);
  Ok (mk a_issue_number a_issue_url a_repo a_status a_spec_id a_spec_dir
         a_pr_number a_pr_url a_bot_comments a_error a_created_at
         a_updated_at).

(** [now] is the clock reading taken by the call. *)
Definition update_status (now : string) (new_status : AutoFixStatus.t)
    (self : t) : t :=
  mk (issue_number self) (issue_url self) (repo self) new_status
     (spec_id self) (spec_dir self) (pr_number self) (pr_url self)
     (bot_comments self) (error self) (created_at self) (PStr now).

Definition index_entry (self : t) : pyval :=
  PDict [ ("issue_number", issue_number self);
          ("repo", repo self);
          ("status", PStr (AutoFixStatus.value (status self)));
          ("spec_id", spec_id self);
          ("pr_number", pr_number self);
          ("updated_at", updated_at self) ].

Definition _update_index (now : string) (self : t) (issues_dir : path)
    (fs : store) : result store :=
  let index_file := issues_dir // "index.json" in
  index ← (if exists_ index_file fs then json_load index_file fs
           else Ok (PDict [("triaged", PList []); ("auto_fix_queue", PList []);
                           ("last_updated", PNone)]));
  queue ← py_get index "auto_fix_queue" (PList []);
  let same q :=
    (n ← py_getitem q "issue_number"; Ok (py_eq n (issue_number self))) in
  items ← py_iter queue;
  existing ← next_where same items;
  let entry := index_entry self in
  queue ← (if from_option py_truthy false existing
           then items ← py_iter queue;
                qs ← traverse (fun q => b ← same q;
                                        Ok (if b : bool then entry else q))
                              items;
                Ok (PList qs)
           else py_append queue entry);
  index ← py_setitem index "auto_fix_queue" queue;
  index ← py_setitem index "last_updated" (PStr now);
  Ok (json_dump index index_file fs).

Definition save `{Runtime} (now : string) (self : t) (github_dir : path)
    (fs : store) : result store :=
  let issues_dir := github_dir // "issues" in
  let fs := mkdir issues_dir fs in
  let autofix_file :=
    issues_dir // ("autofix_" ++ format_value (issue_number self) ++ ".json") in
  let fs := json_dump (PDict (to_dict self)) autofix_file fs in
  _update_index now self issues_dir fs.

Definition load `{Runtime} (now_c now_u : string) (github_dir : path)
    (issue_number : pyval) (fs : store) : result (option t) :=
  let autofix_file :=
    github_dir // "issues"
      // ("autofix_" ++ format_value issue_number ++ ".json") in
  if negb (exists_ autofix_file fs) then Ok None
  else data ← json_load autofix_file fs;
       r ← from_dict now_c now_u data;
       Ok (Some r).

End AutoFixState.

(** ** GitHubRunnerConfig *)

Module GitHubRunnerConfig.

Record t := mk {
  token : pyval;
  repo : pyval;
  bot_token : pyval;
  auto_fix_enabled : pyval;
  auto_fix_labels : pyval;
  require_human_approval : pyval;
  triage_enabled : pyval;
  duplicate_threshold : pyval;
  spam_threshold : pyval;
  feature_creep_threshold : pyval;
  enable_triage_comments : pyval;
  pr_review_enabled : pyval;
  auto_post_reviews : pyval;
  allow_fix_commits : pyval;
  model : pyval;
  thinking_level : pyval;
}.

(** The binary64 values of the literals [0.80], [0.75] and [0.70]. *)
Definition float_0_80 : pyval := PFloat (S754_finite false 7205759403792794 (-53)).
Definition float_0_75 : pyval := PFloat (S754_finite false 6755399441055744 (-53)).
Definition float_0_70 : pyval := PFloat (S754_finite false 6305039478318694 (-53)).

Definition to_dict (self : t) : dict :=
  [ ("token", PStr "***");
    ("repo", repo self);
    ("bot_token", if py_truthy (bot_token self) then PStr "***" else PNone);
    ("auto_fix_enabled", auto_fix_enabled self);
    ("auto_fix_labels", auto_fix_labels self);
    ("require_human_approval", require_human_approval self);
    ("triage_enabled", triage_enabled self);
    ("duplicate_threshold", duplicate_threshold self);
    ("spam_threshold", spam_threshold self);
    ("feature_creep_threshold", feature_creep_threshold self);
    ("enable_triage_comments", enable_triage_comments self);
    ("pr_review_enabled", pr_review_enabled self);
    ("auto_post_reviews", auto_post_reviews self);
    ("allow_fix_commits", allow_fix_commits self);
    ("model", model self);
    ("thinking_level", thinking_level self) ].

(** The mapping [save_settings] hands to [json.dump]. *)
Definition settings_written (self : t) : dict :=
  let settings := to_dict self in
  let settings := Dict.pop "token" settings in
  let settings := Dict.pop "bot_token" settings in
  settings.

Definition save_settings (self : t) (github_dir : path) (fs : store)
  : store :=
  let fs := mkdir github_dir fs in
  let config_file := github_dir // "config.json" in
  json_dump (PDict (settings_written self)) config_file fs.

Definition load_settings (github_dir : path) (a_token a_repo a_bot_token : pyval)
    (fs : store) : result t :=
  let config_file := github_dir // "config.json" in
  settings ← (if exists_ config_file fs then json_load config_file fs
              else Ok (PDict []));
  v_auto_fix_enabled ← py_get settings "auto_fix_enabled" (PBool false);
  v_auto_fix_labels ← py_get settings "auto_fix_labels" (PList [PStr "auto-fix"]);
  v_require_human_approval ← py_get settings "require_human_approval" (PBool true);
  v_triage_enabled ← py_get settings "triage_enabled" (PBool false);
  v_duplicate_threshold ← py_get settings "duplicate_threshold" float_0_80;
  v_spam_threshold ← py_get settings "spam_threshold" float_0_75;
  v_feature_creep_threshold ← py_get settings "feature_creep_threshold" float_0_70;
  v_enable_triage_comments ← py_get settings "enable_triage_comments" (PBool false);
  v_pr_review_enabled ← py_get settings "pr_review_enabled" (PBool false);
  v_auto_post_reviews ← py_get settings "auto_post_reviews" (PBool false);
  v_allow_fix_commits ← py_get settings "allow_fix_commits" (PBool true);
  v_model ← py_get settings "model" (PStr "claude-sonnet-4-20250514");
  v_thinking_level ← py_get settings "thinking_level" (PStr "medium");
  Ok (mk a_token a_repo a_bot_token v_auto_fix_enabled v_auto_fix_labels
         v_require_human_approval v_triage_enabled v_duplicate_threshold
         v_spam_threshold v_feature_creep_threshold v_enable_triage_comments
         v_pr_review_enabled v_auto_post_reviews v_allow_fix_commits v_model
         v_thinking_level).

End GitHubRunnerConfig.

(** * Vocabulary of the statements *)

(** What a [load] does with the file it looks at, given the decoder it
    applies: no file gives [None]; a file that is not JSON raises the
    parser's error; a JSON file raises whatever the decoder raises, and
    gives the decoded record otherwise. *)
Definition load_outcome {A} (decode : pyval -> result A) (file : option content)
    (r : result (option A)) : Prop :=
  match file with
  | None => r = Ok None
  | Some (NotJson _) => r = Raise JSONDecodeError
  | Some (Json v) =>
      match decode v with
      | Ok x => r = Ok (Some x)
      | Raise e => r = Raise e
      end
  end.

(** The required keys of each decoder, in the order [from_dict] reads
    them, and the check an enum-valued one must pass. *)

Definition is_member {E} (call : pyval -> result E) (v : pyval) : bool :=
  is_ok (call v).

Definition PRReviewFinding_required : list (string * (pyval -> bool)) :=
  [ ("id", fun _ => true);
    ("severity", is_member ReviewSeverity.call);
    ("category", is_member ReviewCategory.call);
    ("title", fun _ => true);
    ("description", fun _ => true);
    ("file", fun _ => true);
    ("line", fun _ => true) ].

Definition PRReviewResult_required : list (string * (pyval -> bool)) :=
  [ ("pr_number", fun _ => true);
    ("repo", fun _ => true);
    ("success", fun _ => true) ].

Definition TriageResult_required : list (string * (pyval -> bool)) :=
  [ ("issue_number", fun _ => true);
    ("repo", fun _ => true);
    ("category", is_member TriageCategory.call);
    ("confidence", fun _ => true) ].

Definition AutoFixState_required : list (string * (pyval -> bool)) :=
  [ ("issue_number", fun _ => true);
    ("issue_url", fun _ => true);
    ("repo", fun _ => true) ].

(** The first required field, in decoding order, that a mapping does not
    provide properly: its key is missing, or its value fails the check. *)
Inductive fault : Type :=
| Missing (key : string)
| Invalid (key : string) (value : pyval).

Fixpoint first_fault (fields : list (string * (pyval -> bool))) (d : dict)
  : option fault :=
  match fields with
  | [] => None
  | (k, check) :: rest =>
      match Dict.get k d with
      | None => Some (Missing k)
      | Some v => if check v then first_fault rest d else Some (Invalid k v)
      end
  end.

(** The exception a fault surfaces as, given the enumeration class that
    checks each key. *)
Definition fault_exn (cls : string -> string) (f : fault) : exn :=
  match f with
  | Missing k => KeyError k
  | Invalid k v => ValueError v (cls k)
  end.

(** An index entry that carries the identifier key, and one whose
    identifier equals [ident]. *)
Definition has_key (key : string) (r : pyval) : bool :=
  is_ok (py_getitem r key).

Definition matches (key : string) (ident : pyval) (r : pyval) : bool :=
  match py_getitem r key with
  | Ok n => py_eq n ident
  | Raise _ => false
  end.

(** The entry list after an upsert, in the spec's words: when an entry
    carries the record's identifier, every such entry is replaced where it
    stands; otherwise the new entry is appended. *)
Definition upsert (key : string) (ident entry : pyval) (rs : list pyval)
  : list pyval :=
  if existsb (matches key ident) rs
  then map (fun r => if matches key ident r then entry else r) rs
  else rs ++ [entry].

(** The index an update starts from: the document in the index file, or
    the skeleton when there is no file. *)
Definition index_before (skeleton : dict) (file : option content) (idx : dict)
  : Prop :=
  match file with
  | None => idx = skeleton
  | Some c => c = Json (PDict idx)
  end.

(** The entry list under [key] of an index, [[]] when the key is absent. *)
Definition entries_of (key : string) (idx : dict) (rs : list pyval) : Prop :=
  default (PList []) (Dict.get key idx) = PList rs.

(** The keys of the issues index that the auto-fix update does not own. *)
Definition other_key (kv : string * pyval) : bool :=
  negb (String.eqb (fst kv) "auto_fix_queue")
  && negb (String.eqb (fst kv) "last_updated").

(** A formatter for file names that prints an [int] identifier in
    decimal, as the runtime does. *)
Definition decimal_format : Runtime := fun v =>
  match v with
  | PInt n => NilZero.string_of_int (Z.to_int n)
  | PStr s => s
  | PNone => "None"
  | PBool true => "True"
  | PBool false => "False"
  | _ => ""
  end.

(** The entry list an index update reads from the store: the list under
    the index's key, in the index file or in the skeleton that stands for
    a missing file. *)
Definition review_entries (fs : store) (github_dir : path) (rs : list pyval)
  : Prop :=
  exists idx,
    index_before [("reviews", PList []); ("last_updated", PNone)]
      (fs !! (github_dir // "pr" // "index.json")) idx
    /\ entries_of "reviews" idx rs.

Definition queue_entries (fs : store) (github_dir : path) (qs : list pyval)
  : Prop :=
  exists idx,
    index_before [("triaged", PList []); ("auto_fix_queue", PList []);
                  ("last_updated", PNone)]
      (fs !! (github_dir // "issues" // "index.json")) idx
    /\ entries_of "auto_fix_queue" idx qs.

(** The value each decoder substitutes for an optional key that the
    mapping lacks; the timestamps default to the clock readings. *)
Definition PRReviewFinding_defaults : dict :=
  [ ("end_line", PNone); ("suggested_fix", PNone); ("fixable", PBool false) ].

Definition PRReviewResult_defaults (now : string) : dict :=
  [ ("findings", PList []); ("summary", PStr "");
    ("overall_status", PStr "comment"); ("review_id", PNone);
    ("reviewed_at", PStr now); ("error", PNone) ].

Definition TriageResult_defaults (now : string) : dict :=
  [ ("labels_to_add", PList []); ("labels_to_remove", PList []);
    ("is_duplicate", PBool false); ("duplicate_of", PNone);
    ("is_spam", PBool false); ("is_feature_creep", PBool false);
    ("suggested_breakdown", PList []); ("priority", PStr "medium");
    ("comment", PNone); ("triaged_at", PStr now) ].

Definition AutoFixState_defaults (now_c now_u : string) : dict :=
  [ ("status", PStr "pending"); ("spec_id", PNone); ("spec_dir", PNone);
    ("pr_number", PNone); ("pr_url", PNone); ("bot_comments", PList []);
    ("error", PNone); ("created_at", PStr now_c); ("updated_at", PStr now_u) ].

(** * Properties *)

(** ** Round trip of the codecs *)

Lemma traverse_map_inv {A B} (f : A -> result B) (g : B -> A) (l : list B) :
  (forall x, f (g x) = Ok x) -> traverse f (map g l) = Ok l.
Proof.
  intros Hfg. induction l as [|x l IH]; simpl.
  - reflexivity.
  - rewrite Hfg. simpl. rewrite IH. reflexivity.
Qed.

Lemma PRReviewFinding_roundtrip (x : PRReviewFinding.t) :
  PRReviewFinding.from_dict (PDict (PRReviewFinding.to_dict x)) = Ok x.
Proof. destruct x as [i s c ? ? ? ? ? ? ?]. destruct s, c; reflexivity. Qed.

Lemma PRReviewResult_roundtrip (now : string) (x : PRReviewResult.t) :
  PRReviewResult.from_dict now (PDict (PRReviewResult.to_dict x)) = Ok x.
Proof.
  destruct x as [n r s fs ? ? ? ? ?].
  unfold PRReviewResult.from_dict, PRReviewResult.to_dict. simpl.
  rewrite (traverse_map_inv PRReviewFinding.from_dict
             (fun f => PDict (PRReviewFinding.to_dict f)) fs
             PRReviewFinding_roundtrip).
  reflexivity.
Qed.

Lemma TriageResult_roundtrip (now : string) (x : TriageResult.t) :
  TriageResult.from_dict now (PDict (TriageResult.to_dict x)) = Ok x.
Proof. destruct x as [? ? c ? ? ? ? ? ? ? ? ? ? ?]. destruct c; reflexivity. Qed.

Lemma AutoFixState_roundtrip (now_c now_u : string) (x : AutoFixState.t) :
  AutoFixState.from_dict now_c now_u (PDict (AutoFixState.to_dict x)) = Ok x.
Proof. destruct x as [? ? ? s ? ? ? ? ? ? ? ?]. destruct s; reflexivity. Qed.

(** C1.  For each of the four record types, decoding the encoding of a
    record gives that record back, field for field: nested findings, enum
    members, fields left at [None] and the timestamps, whatever the clock
    reads at decoding time. *)
Theorem C1_decode_encode :
  (forall x, PRReviewFinding.from_dict (PDict (PRReviewFinding.to_dict x)) = Ok x)
  /\ (forall now x,
        PRReviewResult.from_dict now (PDict (PRReviewResult.to_dict x)) = Ok x)
  /\ (forall now x,
        TriageResult.from_dict now (PDict (TriageResult.to_dict x)) = Ok x)
  /\ (forall now_c now_u x,
        AutoFixState.from_dict now_c now_u (PDict (AutoFixState.to_dict x)) = Ok x).
Proof.
  repeat split.
  - apply PRReviewFinding_roundtrip.
  - apply PRReviewResult_roundtrip.
  - apply TriageResult_roundtrip.
  - apply AutoFixState_roundtrip.
Qed.

(** ** Secrets stay out of the settings file *)

(** C2.  Take two configurations that agree on every field but [token]
    and [bot_token].  [to_dict] holds the placeholder at ["token"] and the
    placeholder or [None] at ["bot_token"], whatever the secrets are, and
    depends on them only through the truth value of [bot_token].  The
    mapping [save_settings] writes has neither key: it is the fourteen
    other fields under their names, the same for both configurations, and
    so is the store after the write.  The content of [config.json] does
    not depend on the secrets. *)
Theorem C2_secrets_never_written
    (tok tok' bot bot' r e l h t d s f c p a x m k : pyval)
    (github_dir : path) (fs : store) :
  let cfg := GitHubRunnerConfig.mk tok r bot e l h t d s f c p a x m k in
  let cfg' := GitHubRunnerConfig.mk tok' r bot' e l h t d s f c p a x m k in
  Dict.get "token" (GitHubRunnerConfig.to_dict cfg) = Some (PStr "***")
  /\ (Dict.get "bot_token" (GitHubRunnerConfig.to_dict cfg) = Some (PStr "***")
      \/ Dict.get "bot_token" (GitHubRunnerConfig.to_dict cfg) = Some PNone)
  /\ (py_truthy bot = py_truthy bot' ->
      GitHubRunnerConfig.to_dict cfg = GitHubRunnerConfig.to_dict cfg')
  /\ ~ In "token" (Dict.keys (GitHubRunnerConfig.settings_written cfg))
  /\ ~ In "bot_token" (Dict.keys (GitHubRunnerConfig.settings_written cfg))
  /\ GitHubRunnerConfig.settings_written cfg
     = [ ("repo", r); ("auto_fix_enabled", e); ("auto_fix_labels", l);
         ("require_human_approval", h); ("triage_enabled", t);
         ("duplicate_threshold", d); ("spam_threshold", s);
         ("feature_creep_threshold", f); ("enable_triage_comments", c);
         ("pr_review_enabled", p); ("auto_post_reviews", a);
         ("allow_fix_commits", x); ("model", m); ("thinking_level", k) ]
  /\ GitHubRunnerConfig.settings_written cfg
     = GitHubRunnerConfig.settings_written cfg'
  /\ GitHubRunnerConfig.save_settings cfg github_dir fs
     = GitHubRunnerConfig.save_settings cfg' github_dir fs
  /\ GitHubRunnerConfig.save_settings cfg github_dir fs
       !! (github_dir // "config.json")
     = Some (Json (PDict (GitHubRunnerConfig.settings_written cfg))).
Proof.
  intros cfg cfg'. repeat split.
  - simpl. destruct (py_truthy bot); [left | right]; reflexivity.
  - intros Hb. unfold GitHubRunnerConfig.to_dict; simpl. rewrite Hb. reflexivity.
  - simpl. intros H. repeat (destruct H as [H | H]; [discriminate H |]). exact H.
  - simpl. intros H. repeat (destruct H as [H | H]; [discriminate H |]). exact H.
  - unfold GitHubRunnerConfig.save_settings, json_dump. apply lookup_insert_eq.
Qed.

(** The secrets of C2 at work: two configurations with different tokens
    write the same settings, none of which is a token. *)
Example settings_written_example :
  GitHubRunnerConfig.settings_written
    (GitHubRunnerConfig.mk (PStr "ghp_secret") (PStr "o/r") (PStr "ghp_bot")
       (PBool true) (PList [PStr "auto-fix"]) (PBool true) (PBool false)
       GitHubRunnerConfig.float_0_80 GitHubRunnerConfig.float_0_75
       GitHubRunnerConfig.float_0_70 (PBool false) (PBool false) (PBool false)
       (PBool true) (PStr "claude-sonnet-4-20250514") (PStr "medium"))
  = [ ("repo", PStr "o/r");
      ("auto_fix_enabled", PBool true);
      ("auto_fix_labels", PList [PStr "auto-fix"]);
      ("require_human_approval", PBool true);
      ("triage_enabled", PBool false);
      ("duplicate_threshold", GitHubRunnerConfig.float_0_80);
      ("spam_threshold", GitHubRunnerConfig.float_0_75);
      ("feature_creep_threshold", GitHubRunnerConfig.float_0_70);
      ("enable_triage_comments", PBool false);
      ("pr_review_enabled", PBool false);
      ("auto_post_reviews", PBool false);
      ("allow_fix_commits", PBool true);
      ("model", PStr "claude-sonnet-4-20250514");
      ("thinking_level", PStr "medium") ].
Proof. reflexivity. Qed.

(** ** Loading: absence is not failure *)

Lemma exists_None (p : path) (fs : store) : fs !! p = None -> exists_ p fs = false.
Proof.
  intros H. unfold exists_. apply bool_decide_eq_false.
  rewrite H. intros [x Hx]. discriminate Hx.
Qed.

Lemma exists_Some (p : path) (fs : store) (c : content) :
  fs !! p = Some c -> exists_ p fs = true.
Proof.
  intros H. unfold exists_. apply bool_decide_eq_true. rewrite H. eauto.
Qed.

Lemma load_outcome_intro {A} (decode : pyval -> result A) (p : path) (fs : store) :
  load_outcome decode (fs !! p)
    (if negb (exists_ p fs) then Ok None
     else data ← json_load p fs; r ← decode data; Ok (Some r)).
Proof.
  unfold load_outcome, json_load.
  destruct (fs !! p) as [[v | text] |] eqn:Hp.
  - rewrite (exists_Some _ _ _ Hp). simpl. destruct (decode v); reflexivity.
  - rewrite (exists_Some _ _ _ Hp). reflexivity.
  - rewrite (exists_None _ _ Hp). reflexivity.
Qed.

(** C4.  Each of the three [load] operations returns [None] when the
    record's file does not exist.  When the file exists, [load] never
    returns [None]: text that is not JSON raises [JSONDecodeError], a JSON
    document the decoder rejects raises the decoder's exception, and any
    other document is returned decoded. *)
Theorem C4_load_absent_or_failure `{Runtime} (now now' : string)
    (github_dir : path) (n : pyval) (fs : store) :
  load_outcome (PRReviewResult.from_dict now)
    (fs !! (github_dir // "pr" // ("review_" ++ format_value n ++ ".json")))
    (PRReviewResult.load now github_dir n fs)
  /\ load_outcome (TriageResult.from_dict now)
       (fs !! (github_dir // "issues" // ("triage_" ++ format_value n ++ ".json")))
       (TriageResult.load now github_dir n fs)
  /\ load_outcome (AutoFixState.from_dict now now')
       (fs !! (github_dir // "issues" // ("autofix_" ++ format_value n ++ ".json")))
       (AutoFixState.load now now' github_dir n fs).
Proof.
  split; [| split]; apply load_outcome_intro.
Qed.

(** ** Decoding a mapping that lacks a required key or holds a bad enum value *)

Lemma first_fault_missing (fields : list (string * (pyval -> bool))) (d : dict)
    (k : string) :
  In k (map fst fields) -> Dict.get k d = None -> first_fault fields d <> None.
Proof.
  induction fields as [|[k' check] rest IH]; simpl.
  - intros [].
  - intros [-> | Hin] Hk.
    + rewrite Hk. discriminate.
    + destruct (Dict.get k' d); [| discriminate].
      destruct (check p); [auto | discriminate].
Qed.

Lemma first_fault_invalid (fields : list (string * (pyval -> bool))) (d : dict)
    (k : string) (check : pyval -> bool) (v : pyval) :
  In (k, check) fields -> Dict.get k d = Some v -> check v = false ->
  first_fault fields d <> None.
Proof.
  induction fields as [|[k' check'] rest IH]; simpl.
  - intros [].
  - intros [Heq | Hin] Hk Hv.
    + injection Heq as -> ->. rewrite Hk, Hv. discriminate.
    + destruct (Dict.get k' d); [| discriminate].
      destruct (check' p); [auto | discriminate].
Qed.

Lemma enum_call_raise {E} (cls : string) (value : E -> string)
    (members : list E) (v : pyval) (e : exn) :
  enum_call cls value members v = Raise e -> e = ValueError v cls.
Proof.
  unfold enum_call. destruct v; try (intros [= <-]; reflexivity).
  destruct (find _ members); [discriminate | intros [= <-]; reflexivity].
Qed.

Lemma enum_call_not_member {E} (cls : string) (value : E -> string)
    (members : list E) (s : string) :
  ~ In s (map value members) ->
  enum_call cls value members (PStr s) = Raise (ValueError (PStr s) cls).
Proof.
  intros Hs. unfold enum_call.
  destruct (find (fun m => String.eqb (value m) s) members) as [m|] eqn:Hfind.
  - apply find_some in Hfind as [Hin Heq]. apply String.eqb_eq in Heq.
    exfalso. apply Hs. rewrite <- Heq. apply in_map. exact Hin.
  - reflexivity.
Qed.

Ltac fault_step :=
  match goal with
  | |- context [Dict.get ?k ?d] => destruct (Dict.get k d) eqn:?
  | |- context [is_member ?c ?v] =>
      unfold is_member at 1; destruct (c v) as [?|?] eqn:?
  end; cbn [mbind result_bind is_ok].

Ltac fault_done :=
  try discriminate;
  intros [= <-]; try reflexivity;
  match goal with
  | H : _ = Raise _ |- _ => apply enum_call_raise in H; subst; reflexivity
  end.

Lemma PRReviewFinding_fault (d : dict) (f : fault) :
  first_fault PRReviewFinding_required d = Some f ->
  PRReviewFinding.from_dict (PDict d)
  = Raise (fault_exn (fun k => if String.eqb k "severity" then "ReviewSeverity"
                               else "ReviewCategory") f).
Proof.
  unfold PRReviewFinding.from_dict, PRReviewFinding_required, py_getitem.
  cbn [first_fault mbind result_bind].
  repeat fault_step; fault_done.
Qed.

Lemma PRReviewResult_fault (now : string) (d : dict) (f : fault) :
  first_fault PRReviewResult_required d = Some f ->
  PRReviewResult.from_dict now (PDict d) = Raise (fault_exn (fun _ => "") f).
Proof.
  unfold PRReviewResult.from_dict, PRReviewResult_required, py_getitem.
  cbn [first_fault mbind result_bind].
  repeat fault_step; fault_done.
Qed.

Lemma TriageResult_fault (now : string) (d : dict) (f : fault) :
  first_fault TriageResult_required d = Some f ->
  TriageResult.from_dict now (PDict d)
  = Raise (fault_exn (fun _ => "TriageCategory") f).
Proof.
  unfold TriageResult.from_dict, TriageResult_required, py_getitem.
  cbn [first_fault mbind result_bind].
  repeat fault_step; fault_done.
Qed.

Lemma AutoFixState_fault (now_c now_u : string) (d : dict) (f : fault) :
  first_fault AutoFixState_required d = Some f ->
  AutoFixState.from_dict now_c now_u (PDict d)
  = Raise (fault_exn (fun _ => "") f).
Proof.
  unfold AutoFixState.from_dict, AutoFixState_required, py_getitem.
  cbn [first_fault mbind result_bind].
  repeat fault_step; fault_done.
Qed.

Lemma fault_not_ok {A} (r : result A) (e : exn) : r = Raise e -> is_ok r = false.
Proof. intros ->. reflexivity. Qed.

Lemma first_fault_some (fields : list (string * (pyval -> bool))) (d : dict) :
  first_fault fields d <> None -> exists f, first_fault fields d = Some f.
Proof. destruct (first_fault fields d) as [f|]; [eauto | congruence]. Qed.

(** C5, as amended.  A decoder reads the required keys in a fixed order
    and stops at the first exception.  For each record type: a mapping
    that lacks a required key is never decoded, and the decoder raises
    [KeyError] naming the key whenever that key is the first fault, that
    is, every required key read before it is present and, where it is an
    enum field, holds a member's value. *)
Theorem C5_missing_key_first_fault (now now' : string) (d : dict) (k : string) :
  ((In k (map fst PRReviewFinding_required) -> Dict.get k d = None ->
    is_ok (PRReviewFinding.from_dict (PDict d)) = false)
   /\ (first_fault PRReviewFinding_required d = Some (Missing k) ->
       PRReviewFinding.from_dict (PDict d) = Raise (KeyError k)))
  /\ ((In k (map fst PRReviewResult_required) -> Dict.get k d = None ->
       is_ok (PRReviewResult.from_dict now (PDict d)) = false)
      /\ (first_fault PRReviewResult_required d = Some (Missing k) ->
          PRReviewResult.from_dict now (PDict d) = Raise (KeyError k)))
  /\ ((In k (map fst TriageResult_required) -> Dict.get k d = None ->
       is_ok (TriageResult.from_dict now (PDict d)) = false)
      /\ (first_fault TriageResult_required d = Some (Missing k) ->
          TriageResult.from_dict now (PDict d) = Raise (KeyError k)))
  /\ ((In k (map fst AutoFixState_required) -> Dict.get k d = None ->
       is_ok (AutoFixState.from_dict now now' (PDict d)) = false)
      /\ (first_fault AutoFixState_required d = Some (Missing k) ->
          AutoFixState.from_dict now now' (PDict d) = Raise (KeyError k))).
Proof.
  repeat match goal with |- _ /\ _ => split end.
  - intros Hin Hk.
    destruct (first_fault_some _ d (first_fault_missing _ d k Hin Hk)) as [f Hf].
    exact (fault_not_ok _ _ (PRReviewFinding_fault d f Hf)).
  - intros Hf. exact (PRReviewFinding_fault d _ Hf).
  - intros Hin Hk.
    destruct (first_fault_some _ d (first_fault_missing _ d k Hin Hk)) as [f Hf].
    exact (fault_not_ok _ _ (PRReviewResult_fault now d f Hf)).
  - intros Hf. exact (PRReviewResult_fault now d _ Hf).
  - intros Hin Hk.
    destruct (first_fault_some _ d (first_fault_missing _ d k Hin Hk)) as [f Hf].
    exact (fault_not_ok _ _ (TriageResult_fault now d f Hf)).
  - intros Hf. exact (TriageResult_fault now d _ Hf).
  - intros Hin Hk.
    destruct (first_fault_some _ d (first_fault_missing _ d k Hin Hk)) as [f Hf].
    exact (fault_not_ok _ _ (AutoFixState_fault now now' d f Hf)).
  - intros Hf. exact (AutoFixState_fault now now' d _ Hf).
Qed.

(** A finding mapping without ["title"] whose ["severity"] is not a
    member's value: the decoder stops at the severity and raises
    [ValueError], so the failure is not a [KeyError] naming ["title"]. *)
Lemma C5_counterexample :
  let d := [("id", PStr "f1"); ("severity", PStr "bogus")] in
  In "title" (map fst PRReviewFinding_required)
  /\ Dict.get "title" d = None
  /\ PRReviewFinding.from_dict (PDict d)
     = Raise (ValueError (PStr "bogus") "ReviewSeverity")
  /\ PRReviewFinding.from_dict (PDict d) <> Raise (KeyError "title").
Proof.
  simpl. repeat split; [tauto | discriminate].
Qed.

(** The amended C5 at a mapping that lacks only ["title"]. *)
Lemma C5_witness :
  let d := [ ("id", PStr "f1"); ("severity", PStr "high");
             ("category", PStr "security"); ("description", PStr "d");
             ("file", PStr "a.py"); ("line", PInt 3) ] in
  is_ok (PRReviewFinding.from_dict (PDict d)) = false
  /\ PRReviewFinding.from_dict (PDict d) = Raise (KeyError "title").
Proof.
  intros d.
  destruct (C5_missing_key_first_fault "" "" d "title") as [[Hfail Hkey] _].
  split.
  - apply Hfail; [simpl; tauto | reflexivity].
  - apply Hkey. reflexivity.
Defined.

(** One required key of each record type, removed from an otherwise
    complete mapping. *)
Example missing_id_of_finding :
  PRReviewFinding.from_dict
    (PDict [ ("severity", PStr "high"); ("category", PStr "security");
             ("title", PStr "t"); ("description", PStr "d");
             ("file", PStr "a.py"); ("line", PInt 3) ])
  = Raise (KeyError "id").
Proof. reflexivity. Qed.

Example missing_success_of_review :
  PRReviewResult.from_dict "2024-01-01T00:00:00"
    (PDict [("pr_number", PInt 7); ("repo", PStr "o/r")])
  = Raise (KeyError "success").
Proof. reflexivity. Qed.

Example missing_confidence_of_triage :
  TriageResult.from_dict "2024-01-01T00:00:00"
    (PDict [("issue_number", PInt 7); ("repo", PStr "o/r");
            ("category", PStr "bug")])
  = Raise (KeyError "confidence").
Proof. reflexivity. Qed.

Example missing_issue_url_of_autofix :
  AutoFixState.from_dict "2024-01-01T00:00:00" "2024-01-01T00:00:01"
    (PDict [("issue_number", PInt 7); ("repo", PStr "o/r")])
  = Raise (KeyError "issue_url").
Proof. reflexivity. Qed.

Lemma not_member_invalid {E} (cls : string) (value : E -> string)
    (members : list E) (s : string) :
  ~ In s (map value members) ->
  is_member (enum_call cls value members) (PStr s) = false.
Proof.
  intros Hs. unfold is_member. rewrite (enum_call_not_member _ _ _ _ Hs).
  reflexivity.
Qed.

Lemma AutoFixState_bad_status (now_c now_u : string) (d : dict) (v : pyval) :
  Dict.get "status" d = Some v ->
  is_member AutoFixStatus.call v = false ->
  is_ok (AutoFixState.from_dict now_c now_u (PDict d)) = false
  /\ (first_fault AutoFixState_required d = None ->
      AutoFixState.from_dict now_c now_u (PDict d)
      = Raise (ValueError v "AutoFixStatus")).
Proof.
  intros Hs Hv.
  unfold AutoFixState.from_dict, AutoFixState_required, py_getitem, py_get.
  cbn [first_fault mbind result_bind]. rewrite Hs. cbn [from_option id].
  unfold is_member in Hv.
  destruct (AutoFixStatus.call v) as [m | e] eqn:Hcall; [discriminate Hv |].
  apply enum_call_raise in Hcall. subst e.
  destruct (Dict.get "issue_number" d); cbn [mbind result_bind is_ok];
    [| split; [reflexivity | discriminate]].
  destruct (Dict.get "issue_url" d); cbn [mbind result_bind is_ok];
    [| split; [reflexivity | discriminate]].
  destruct (Dict.get "repo" d); cbn [mbind result_bind is_ok];
    [| split; [reflexivity | discriminate]].
  split; reflexivity.
Qed.

(** C6, as amended.  For each enum-valued field: a mapping that holds
    there a string outside the vocabulary is never decoded, and the
    decoder raises [ValueError] carrying the offending value and the name
    of the enumeration class (which tells the field) whenever that value
    is the first fault, that is, every required key read before the field
    is present and valid.  [status] is read after the three required keys
    of an auto-fix state. *)
Theorem C6_invalid_enum_first_fault (now now' : string) (d : dict) (s : string) :
  (~ In s (map ReviewSeverity.value ReviewSeverity.members) ->
   Dict.get "severity" d = Some (PStr s) ->
   is_ok (PRReviewFinding.from_dict (PDict d)) = false
   /\ (first_fault PRReviewFinding_required d = Some (Invalid "severity" (PStr s)) ->
       PRReviewFinding.from_dict (PDict d)
       = Raise (ValueError (PStr s) "ReviewSeverity")))
  /\ (~ In s (map ReviewCategory.value ReviewCategory.members) ->
      Dict.get "category" d = Some (PStr s) ->
      is_ok (PRReviewFinding.from_dict (PDict d)) = false
      /\ (first_fault PRReviewFinding_required d = Some (Invalid "category" (PStr s)) ->
          PRReviewFinding.from_dict (PDict d)
          = Raise (ValueError (PStr s) "ReviewCategory")))
  /\ (~ In s (map TriageCategory.value TriageCategory.members) ->
      Dict.get "category" d = Some (PStr s) ->
      is_ok (TriageResult.from_dict now (PDict d)) = false
      /\ (first_fault TriageResult_required d = Some (Invalid "category" (PStr s)) ->
          TriageResult.from_dict now (PDict d)
          = Raise (ValueError (PStr s) "TriageCategory")))
  /\ (~ In s (map AutoFixStatus.value AutoFixStatus.members) ->
      Dict.get "status" d = Some (PStr s) ->
      is_ok (AutoFixState.from_dict now now' (PDict d)) = false
      /\ (first_fault AutoFixState_required d = None ->
          AutoFixState.from_dict now now' (PDict d)
          = Raise (ValueError (PStr s) "AutoFixStatus"))).
Proof.
  repeat match goal with |- _ /\ _ => split end.
  - intros Hs Hk. split; [| intros Hf; exact (PRReviewFinding_fault d _ Hf)].
    assert (Hf : first_fault PRReviewFinding_required d <> None).
    { apply (first_fault_invalid _ d "severity" (is_member ReviewSeverity.call) (PStr s));
        [simpl; tauto | exact Hk | exact (not_member_invalid _ _ _ _ Hs)]. }
    destruct (first_fault_some _ d Hf) as [f Hf'].
    exact (fault_not_ok _ _ (PRReviewFinding_fault d f Hf')).
  - intros Hs Hk. split; [| intros Hf; exact (PRReviewFinding_fault d _ Hf)].
    assert (Hf : first_fault PRReviewFinding_required d <> None).
    { apply (first_fault_invalid _ d "category" (is_member ReviewCategory.call) (PStr s));
        [simpl; tauto | exact Hk | exact (not_member_invalid _ _ _ _ Hs)]. }
    destruct (first_fault_some _ d Hf) as [f Hf'].
    exact (fault_not_ok _ _ (PRReviewFinding_fault d f Hf')).
  - intros Hs Hk. split; [| intros Hf; exact (TriageResult_fault now d _ Hf)].
    assert (Hf : first_fault TriageResult_required d <> None).
    { apply (first_fault_invalid _ d "category" (is_member TriageCategory.call) (PStr s));
        [simpl; tauto | exact Hk | exact (not_member_invalid _ _ _ _ Hs)]. }
    destruct (first_fault_some _ d Hf) as [f Hf'].
    exact (fault_not_ok _ _ (TriageResult_fault now d f Hf')).
  - intros Hs Hk.
    exact (AutoFixState_bad_status now now' d (PStr s) Hk
             (not_member_invalid _ _ _ _ Hs)).
Qed.

(** A finding mapping whose ["severity"] is outside the vocabulary and
    which has no ["id"]: the decoder stops at the missing key and raises
    [KeyError], not [ValueError]. *)
Lemma C6_counterexample :
  let d := [("severity", PStr "bogus")] in
  ~ In "bogus" (map ReviewSeverity.value ReviewSeverity.members)
  /\ Dict.get "severity" d = Some (PStr "bogus")
  /\ PRReviewFinding.from_dict (PDict d) = Raise (KeyError "id")
  /\ PRReviewFinding.from_dict (PDict d)
     <> Raise (ValueError (PStr "bogus") "ReviewSeverity").
Proof.
  simpl. repeat split; [| discriminate].
  intros H. repeat (destruct H as [H | H]; [discriminate H |]). exact H.
Qed.

(** The amended C6 at an otherwise complete auto-fix mapping whose status
    is not in the vocabulary. *)
Lemma C6_witness :
  let d := [ ("issue_number", PInt 42); ("issue_url", PStr "https://x/42");
             ("repo", PStr "o/r"); ("status", PStr "done") ] in
  is_ok (AutoFixState.from_dict "" "" (PDict d)) = false
  /\ AutoFixState.from_dict "" "" (PDict d)
     = Raise (ValueError (PStr "done") "AutoFixStatus").
Proof.
  intros d.
  destruct (C6_invalid_enum_first_fault "" "" d "done") as (_ & _ & _ & H).
  assert (Hs : ~ In "done" (map AutoFixStatus.value AutoFixStatus.members)).
  { simpl. intros Hin.
    repeat (destruct Hin as [Hin | Hin]; [discriminate Hin |]). exact Hin. }
  destruct (H Hs eq_refl) as [Hfail Hraise].
  split; [exact Hfail | apply Hraise; reflexivity].
Defined.

Example bad_severity_of_finding :
  PRReviewFinding.from_dict
    (PDict [ ("id", PStr "f1"); ("severity", PStr "urgent");
             ("category", PStr "security"); ("title", PStr "t");
             ("description", PStr "d"); ("file", PStr "a.py"); ("line", PInt 3) ])
  = Raise (ValueError (PStr "urgent") "ReviewSeverity").
Proof. reflexivity. Qed.

Example bad_category_of_triage :
  TriageResult.from_dict "2024-01-01T00:00:00"
    (PDict [ ("issue_number", PInt 7); ("repo", PStr "o/r");
             ("category", PStr "chore"); ("confidence", PInt 1) ])
  = Raise (ValueError (PStr "chore") "TriageCategory").
Proof. reflexivity. Qed.

(** ** Settings are merged with the caller's secrets *)

(** C7.  [load_settings] returns a configuration in exactly two cases:
    [config.json] does not exist, and every setting takes its default; or
    it holds a JSON object, and every setting is read from the object, the
    default standing in for a key the object lacks.  In both cases
    [token], [repo] and [bot_token] are the caller's arguments, whatever
    the file says.  Any other file makes [load_settings] raise. *)
Theorem C7_load_settings (github_dir : path) (a_token a_repo a_bot_token : pyval)
    (fs : store) :
  let r := GitHubRunnerConfig.load_settings github_dir a_token a_repo
             a_bot_token fs in
  let merged settings :=
    GitHubRunnerConfig.mk a_token a_repo a_bot_token
      (default (PBool false) (Dict.get "auto_fix_enabled" settings))
      (default (PList [PStr "auto-fix"]) (Dict.get "auto_fix_labels" settings))
      (default (PBool true) (Dict.get "require_human_approval" settings))
      (default (PBool false) (Dict.get "triage_enabled" settings))
      (default GitHubRunnerConfig.float_0_80
         (Dict.get "duplicate_threshold" settings))
      (default GitHubRunnerConfig.float_0_75 (Dict.get "spam_threshold" settings))
      (default GitHubRunnerConfig.float_0_70
         (Dict.get "feature_creep_threshold" settings))
      (default (PBool false) (Dict.get "enable_triage_comments" settings))
      (default (PBool false) (Dict.get "pr_review_enabled" settings))
      (default (PBool false) (Dict.get "auto_post_reviews" settings))
      (default (PBool true) (Dict.get "allow_fix_commits" settings))
      (default (PStr "claude-sonnet-4-20250514") (Dict.get "model" settings))
      (default (PStr "medium") (Dict.get "thinking_level" settings)) in
  match fs !! (github_dir // "config.json") with
  | None =>
      r = Ok (GitHubRunnerConfig.mk a_token a_repo a_bot_token
                (PBool false) (PList [PStr "auto-fix"]) (PBool true)
                (PBool false) GitHubRunnerConfig.float_0_80
                GitHubRunnerConfig.float_0_75 GitHubRunnerConfig.float_0_70
                (PBool false) (PBool false) (PBool false) (PBool true)
                (PStr "claude-sonnet-4-20250514") (PStr "medium"))
  | Some (Json (PDict settings)) => r = Ok (merged settings)
  | Some (Json _) => r = Raise AttributeError
  | Some (NotJson _) => r = Raise JSONDecodeError
  end
  /\ (forall cfg, r = Ok cfg ->
        GitHubRunnerConfig.token cfg = a_token
        /\ GitHubRunnerConfig.repo cfg = a_repo
        /\ GitHubRunnerConfig.bot_token cfg = a_bot_token).
Proof.
  intros r merged.
  assert (Hcases :
    match fs !! (github_dir // "config.json") with
    | None => r = Ok (merged [])
    | Some (Json (PDict settings)) => r = Ok (merged settings)
    | Some (Json _) => r = Raise AttributeError
    | Some (NotJson _) => r = Raise JSONDecodeError
    end).
  { subst r. unfold GitHubRunnerConfig.load_settings, json_load.
    destruct (fs !! (github_dir // "config.json")) as [[v | text] |] eqn:Hp.
    - rewrite (exists_Some _ _ _ Hp). destruct v; reflexivity.
    - rewrite (exists_Some _ _ _ Hp). reflexivity.
    - rewrite (exists_None _ _ Hp). reflexivity. }
  split.
  - destruct (fs !! (github_dir // "config.json")) as [[v | text] |];
      exact Hcases.
  - intros cfg Hcfg.
    destruct (fs !! (github_dir // "config.json")) as [[v | text] |].
    + destruct v; rewrite Hcases in Hcfg; try discriminate Hcfg.
      injection Hcfg as <-. repeat split.
    + rewrite Hcases in Hcfg. discriminate Hcfg.
    + rewrite Hcases in Hcfg. injection Hcfg as <-. repeat split.
Qed.

(** A settings file that tries to supply a token and sets one flag: the
    token in the file is ignored, the flag is read, the rest defaults. *)
Example load_settings_example :
  GitHubRunnerConfig.load_settings ["gh"] (PStr "ghp_live") (PStr "o/r") PNone
    (<[ ["gh"; "config.json"] :=
          Json (PDict [("token", PStr "stale"); ("triage_enabled", PBool true)]) ]> ∅)
  = Ok (GitHubRunnerConfig.mk (PStr "ghp_live") (PStr "o/r") PNone
          (PBool false) (PList [PStr "auto-fix"]) (PBool true)
          (PBool true) GitHubRunnerConfig.float_0_80
          GitHubRunnerConfig.float_0_75 GitHubRunnerConfig.float_0_70
          (PBool false) (PBool false) (PBool false) (PBool true)
          (PStr "claude-sonnet-4-20250514") (PStr "medium")).
Proof.
  unfold GitHubRunnerConfig.load_settings.
  rewrite (exists_Some _ _ _ (lookup_insert_eq _ _ _)).
  unfold json_load. rewrite lookup_insert_eq. reflexivity.
Qed.

(** ** update_status *)

(** C8, as amended.  [update_status] sets [status] to the given value and
    [updated_at] to the clock reading of the call, and leaves the other
    ten fields as they were.  The new [updated_at] is at least the
    previous one exactly when the clock reading is: the method stamps the
    time it reads and compares nothing. *)
Theorem C8_update_status (now : string) (v : AutoFixStatus.t) (s : AutoFixState.t) :
  let s' := AutoFixState.update_status now v s in
  AutoFixState.status s' = v
  /\ AutoFixState.updated_at s' = PStr now
  /\ (AutoFixState.issue_number s' = AutoFixState.issue_number s
      /\ AutoFixState.issue_url s' = AutoFixState.issue_url s
      /\ AutoFixState.repo s' = AutoFixState.repo s
      /\ AutoFixState.spec_id s' = AutoFixState.spec_id s
      /\ AutoFixState.spec_dir s' = AutoFixState.spec_dir s
      /\ AutoFixState.pr_number s' = AutoFixState.pr_number s
      /\ AutoFixState.pr_url s' = AutoFixState.pr_url s
      /\ AutoFixState.bot_comments s' = AutoFixState.bot_comments s
      /\ AutoFixState.error s' = AutoFixState.error s
      /\ AutoFixState.created_at s' = AutoFixState.created_at s)
  /\ (forall old, AutoFixState.updated_at s = PStr old ->
        (String.leb old now = true <->
         exists new, AutoFixState.updated_at s' = PStr new
                     /\ String.leb old new = true)).
Proof.
  intros s'. split; [reflexivity |]. split; [reflexivity |].
  split; [repeat split |].
  intros old _. split.
  - intros Hle. exists now. split; [reflexivity | exact Hle].
  - intros (new & Hnew & Hle). simpl in Hnew. injection Hnew as <-. exact Hle.
Qed.

(** A state built with an [updated_at] later than the clock reads: after
    [update_status] the timestamp is smaller than it was. *)
Lemma C8_counterexample :
  let s := AutoFixState.mk (PInt 42) (PStr "https://x/42") (PStr "o/r")
             AutoFixStatus.PENDING PNone PNone PNone PNone (PList []) PNone
             (PStr "2024-01-01T00:00:00") (PStr "2031-06-01T12:00:00") in
  let s' := AutoFixState.update_status "2024-03-05T10:15:00"
              AutoFixStatus.BUILDING s in
  AutoFixState.updated_at s = PStr "2031-06-01T12:00:00"
  /\ AutoFixState.updated_at s' = PStr "2024-03-05T10:15:00"
  /\ String.leb "2031-06-01T12:00:00" "2024-03-05T10:15:00" = false.
Proof. repeat split. Qed.

(** The amended C8 at a pending state whose clock has moved on. *)
Lemma C8_witness :
  let s := AutoFixState.mk (PInt 42) (PStr "https://x/42") (PStr "o/r")
             AutoFixStatus.PENDING PNone PNone PNone PNone (PList []) PNone
             (PStr "2024-01-01T00:00:00") (PStr "2024-01-01T00:00:00") in
  exists new,
    AutoFixState.updated_at
      (AutoFixState.update_status "2024-03-05T10:15:00" AutoFixStatus.BUILDING s)
    = PStr new
    /\ String.leb "2024-01-01T00:00:00" new = true.
Proof.
  intros s.
  destruct (C8_update_status "2024-03-05T10:15:00" AutoFixStatus.BUILDING s)
    as (_ & _ & _ & H).
  apply (H "2024-01-01T00:00:00"); reflexivity.
Defined.

(** ** The end_line invariant is the caller's to keep *)

(** C9, as amended.  [from_dict] copies [line] and [end_line] from the
    mapping without comparing them ([end_line] is [None] when the key is
    absent), so the decoded finding satisfies the invariant exactly when
    the mapping's two values do. *)
Theorem C9_end_line_copied (d : dict) (f : PRReviewFinding.t)
    (H : PRReviewFinding.from_dict (PDict d) = Ok f) :
  Dict.get "line" d = Some (PRReviewFinding.line f)
  /\ PRReviewFinding.end_line f = default PNone (Dict.get "end_line" d)
  /\ (PRReviewFinding.end_line_invariant f <->
      forall l e : Z, Dict.get "line" d = Some (PInt l) ->
                      Dict.get "end_line" d = Some (PInt e) -> l <= e).
Proof.
  assert (Hcopy : Dict.get "line" d = Some (PRReviewFinding.line f)
                  /\ PRReviewFinding.end_line f
                     = default PNone (Dict.get "end_line" d)).
  { revert H.
    unfold PRReviewFinding.from_dict, py_getitem, py_get.
    cbn [mbind result_bind].
    repeat match goal with
    | |- context [match Dict.get ?k d with _ => _ end] =>
        destruct (Dict.get k d) eqn:?; cbn [mbind result_bind];
        try discriminate
    | |- context [?c ?v ≫= _] =>
        destruct (c v) eqn:?; cbn [mbind result_bind]; try discriminate
    end.
    all: intros [= <-]; split; reflexivity. }
  destruct Hcopy as [Hline Hend]. split; [exact Hline |]. split; [exact Hend |].
  unfold PRReviewFinding.end_line_invariant. rewrite Hend, Hline. split.
  - intros Hinv l e Hl He. apply Hinv.
    + congruence.
    + rewrite He. reflexivity.
  - intros Hinv l e Hl He. apply Hinv.
    + congruence.
    + destruct (Dict.get "end_line" d) as [x|]; simpl in He;
        [congruence | discriminate He].
Qed.

(** A well-formed mapping whose [end_line] is before its [line]: it is
    decoded, and the finding breaks the invariant. *)
Lemma C9_counterexample :
  let d := [ ("id", PStr "f1"); ("severity", PStr "high");
             ("category", PStr "quality"); ("title", PStr "t");
             ("description", PStr "d"); ("file", PStr "a.py");
             ("line", PInt 10); ("end_line", PInt 5) ] in
  exists f, PRReviewFinding.from_dict (PDict d) = Ok f
            /\ PRReviewFinding.line f = PInt 10
            /\ PRReviewFinding.end_line f = PInt 5
            /\ ~ PRReviewFinding.end_line_invariant f.
Proof.
  eexists. split; [reflexivity |]. split; [reflexivity |].
  split; [reflexivity |].
  intros Hinv. specialize (Hinv 10 5 eq_refl eq_refl). lia.
Qed.

(** The amended C9 at a mapping that keeps the invariant. *)
Lemma C9_witness :
  let d := [ ("id", PStr "f1"); ("severity", PStr "high");
             ("category", PStr "quality"); ("title", PStr "t");
             ("description", PStr "d"); ("file", PStr "a.py");
             ("line", PInt 10); ("end_line", PInt 12) ] in
  let f := PRReviewFinding.mk (PStr "f1") ReviewSeverity.HIGH
             ReviewCategory.QUALITY (PStr "t") (PStr "d") (PStr "a.py")
             (PInt 10) (PInt 12) PNone (PBool false) in
  PRReviewFinding.from_dict (PDict d) = Ok f
  /\ PRReviewFinding.end_line_invariant f.
Proof.
  intros d f.
  assert (H : PRReviewFinding.from_dict (PDict d) = Ok f) by reflexivity.
  split; [exact H |].
  destruct (C9_end_line_copied d f H) as (_ & _ & Hiff).
  apply Hiff. intros l e Hl He.
  injection Hl as <-. injection He as <-. lia.
Defined.

(** ** The index upsert *)

Section Upsert.

Variables (key : string) (ident entry : pyval).

Local Abbreviation same := (fun r : pyval => n ← py_getitem r key; Ok (py_eq n ident)).

Lemma same_has_key (r : pyval) :
  has_key key r = true -> same r = Ok (matches key ident r).
Proof.
  unfold has_key, matches. destruct (py_getitem r key); simpl;
    [reflexivity | discriminate].
Qed.

Lemma next_where_entries (rs : list pyval) :
  Forall (fun r => has_key key r = true) rs ->
  next_where same rs = Ok (find (matches key ident) rs).
Proof.
  induction 1 as [|r rs Hr _ IH]; simpl.
  - reflexivity.
  - rewrite (same_has_key r Hr). simpl.
    destruct (matches key ident r); [reflexivity | exact IH].
Qed.

Lemma traverse_entries (rs : list pyval) :
  Forall (fun r => has_key key r = true) rs ->
  traverse (fun r => b ← same r; Ok (if b : bool then entry else r)) rs
  = Ok (map (fun r => if matches key ident r then entry else r) rs).
Proof.
  induction 1 as [|r rs Hr _ IH]; simpl.
  - reflexivity.
  - rewrite (same_has_key r Hr). simpl. rewrite IH. reflexivity.
Qed.

Lemma has_key_truthy (r : pyval) : has_key key r = true -> py_truthy r = true.
Proof.
  unfold has_key, py_getitem. destruct r as [| | | | | |d]; try discriminate.
  destruct d as [|[k v] d]; [discriminate | reflexivity].
Qed.

Lemma found_truthy (rs : list pyval) :
  Forall (fun r => has_key key r = true) rs ->
  from_option py_truthy false (find (matches key ident) rs)
  = existsb (matches key ident) rs.
Proof.
  induction 1 as [|r rs Hr _ IH]; simpl.
  - reflexivity.
  - destruct (matches key ident r); simpl; [exact (has_key_truthy r Hr) | exact IH].
Qed.

Lemma upsert_length_found (rs : list pyval) :
  existsb (matches key ident) rs = true ->
  length (upsert key ident entry rs) = length rs.
Proof. intros H. unfold upsert. rewrite H. apply length_map. Qed.

Lemma upsert_lookup_found (rs : list pyval) (i : nat) (r : pyval) :
  existsb (matches key ident) rs = true ->
  rs !! i = Some r ->
  upsert key ident entry rs !! i = Some (if matches key ident r then entry else r).
Proof.
  intros H Hi. unfold upsert. rewrite H. clear H.
  revert i Hi. induction rs as [|x l IH]; intros [|i] Hi; simpl in *;
    try discriminate Hi.
  - injection Hi as ->. reflexivity.
  - apply IH. exact Hi.
Qed.

End Upsert.

Section UpsertInv.

Variables (key : string) (ident entry : pyval).

Local Abbreviation same := (fun r : pyval => n ← py_getitem r key; Ok (py_eq n ident)).

Lemma getitem_has_key (r n : pyval) :
  py_getitem r key = Ok n -> has_key key r = true.
Proof. unfold has_key. intros ->. reflexivity. Qed.

Lemma next_where_none_inv (rs : list pyval) :
  next_where same rs = Ok None -> Forall (fun r => has_key key r = true) rs.
Proof.
  induction rs as [|r rs IH]; cbn [next_where]; intros Hnext.
  - constructor.
  - destruct (py_getitem r key) as [n|] eqn:Hr; cbn [mbind result_bind] in Hnext;
      [| discriminate Hnext].
    destruct (py_eq n ident); [discriminate Hnext |].
    constructor; [exact (getitem_has_key r n Hr) | exact (IH Hnext)].
Qed.

Lemma next_where_some_inv (rs : list pyval) (r : pyval) :
  next_where same rs = Ok (Some r) -> In r rs /\ has_key key r = true.
Proof.
  induction rs as [|x rs IH]; cbn [next_where]; intros Hnext.
  - discriminate Hnext.
  - destruct (py_getitem x key) as [n|] eqn:Hx; cbn [mbind result_bind] in Hnext;
      [| discriminate Hnext].
    destruct (py_eq n ident).
    + injection Hnext as ->. split; [left; reflexivity |].
      exact (getitem_has_key r n Hx).
    + destruct (IH Hnext) as [Hin Hk]. split; [right; exact Hin | exact Hk].
Qed.

Lemma traverse_entries_inv (rs out : list pyval) :
  traverse (fun r => b ← same r; Ok (if b : bool then entry else r)) rs = Ok out ->
  Forall (fun r => has_key key r = true) rs.
Proof.
  revert out. induction rs as [|r rs IH]; cbn [traverse]; intros out Hout.
  - constructor.
  - destruct (py_getitem r key) as [n|] eqn:Hr; cbn [mbind result_bind] in Hout;
      [| discriminate Hout].
    destruct (traverse _ rs) as [out'|] eqn:Hrs; cbn [mbind result_bind] in Hout;
      [| discriminate Hout].
    constructor; [exact (getitem_has_key r n Hr) | exact (IH _ eq_refl)].
Qed.

Lemma iter_entries_list (q : pyval) (items : list pyval) (r : pyval) :
  py_iter q = Ok items -> In r items -> has_key key r = true ->
  q = PList items.
Proof.
  destruct q as [| | | |s|l|d]; simpl; try discriminate.
  - intros [= <-] Hin Hk. exfalso. revert Hin Hk. clear.
    induction s as [|c s IH]; simpl; [intros [] |].
    intros [<- | Hin] Hk; [cbv in Hk; discriminate Hk | exact (IH Hin Hk)].
  - intros [= <-] _ _. reflexivity.
  - intros [= <-] Hin Hk. exfalso. revert Hin Hk. unfold Dict.keys. clear.
    induction d as [|[k v] d IH]; simpl; [intros [] |].
    intros [<- | Hin] Hk; [cbv in Hk; discriminate Hk | exact (IH Hin Hk)].
Qed.

(** A successful update started from a list of entries that all carry the
    key. *)
Lemma upsert_steps_inv (q : pyval) (items : list pyval)
    (existing : option pyval) (out : pyval) :
  py_iter q = Ok items ->
  next_where same items = Ok existing ->
  (if from_option py_truthy false existing
   then rs ← traverse (fun r => b ← same r; Ok (if b : bool then entry else r))
                      items;
        Ok (PList rs)
   else py_append q entry) = Ok out ->
  q = PList items /\ Forall (fun r => has_key key r = true) items.
Proof.
  intros Hiter Hnext Hout. destruct existing as [r|]; simpl in Hout.
  - destruct (next_where_some_inv items r Hnext) as [Hin Hk].
    split; [exact (iter_entries_list q items r Hiter Hin Hk) |].
    rewrite (has_key_truthy key r Hk) in Hout.
    destruct (traverse _ items) as [rs|] eqn:Htr; [| discriminate Hout].
    exact (traverse_entries_inv items rs Htr).
  - destruct q as [| | | | |l|]; try discriminate Hout.
    simpl in Hiter. injection Hiter as <-.
    split; [reflexivity | exact (next_where_none_inv l Hnext)].
Qed.

End UpsertInv.

Lemma read_index (skeleton : dict) (p : path) (fs : store) (idx : dict) :
  index_before skeleton (fs !! p) idx ->
  (if exists_ p fs then json_load p fs else Ok (PDict skeleton)) = Ok (PDict idx).
Proof.
  unfold index_before, json_load. destruct (fs !! p) as [c|] eqn:Hp.
  - intros ->. rewrite (exists_Some _ _ _ Hp). reflexivity.
  - intros ->. rewrite (exists_None _ _ Hp). reflexivity.
Qed.

Lemma PRReviewResult_update_index_ok (now : string) (self : PRReviewResult.t)
    (pr_dir : path) (fs : store) (idx : dict) (rs : list pyval) :
  index_before [("reviews", PList []); ("last_updated", PNone)]
    (fs !! (pr_dir // "index.json")) idx ->
  entries_of "reviews" idx rs ->
  Forall (fun r => has_key "pr_number" r = true) rs ->
  PRReviewResult._update_index now self pr_dir fs
  = Ok (<[ pr_dir // "index.json" :=
           Json (PDict (Dict.set "last_updated" (PStr now)
                          (Dict.set "reviews"
                             (PList (upsert "pr_number"
                                       (PRReviewResult.pr_number self)
                                       (PRReviewResult.index_entry self) rs))
                             idx))) ]> fs).
Proof.
  intros Hidx Hrs Hwf. unfold PRReviewResult._update_index.
  rewrite (read_index _ _ _ _ Hidx). cbn [mbind result_bind py_get].
  unfold entries_of in Hrs. rewrite Hrs.
  cbv zeta. cbn [py_iter mbind result_bind].
  rewrite (next_where_entries "pr_number" (PRReviewResult.pr_number self) rs Hwf).
  cbn [mbind result_bind].
  rewrite (found_truthy "pr_number" (PRReviewResult.pr_number self) rs Hwf). unfold upsert.
  destruct (existsb (matches "pr_number" (PRReviewResult.pr_number self)) rs).
  - rewrite (traverse_entries "pr_number" (PRReviewResult.pr_number self) (PRReviewResult.index_entry self) rs Hwf). reflexivity.
  - reflexivity.
Qed.

Lemma AutoFixState_update_index_ok (now : string) (self : AutoFixState.t)
    (issues_dir : path) (fs : store) (idx : dict) (qs : list pyval) :
  index_before [("triaged", PList []); ("auto_fix_queue", PList []);
                ("last_updated", PNone)]
    (fs !! (issues_dir // "index.json")) idx ->
  entries_of "auto_fix_queue" idx qs ->
  Forall (fun q => has_key "issue_number" q = true) qs ->
  AutoFixState._update_index now self issues_dir fs
  = Ok (<[ issues_dir // "index.json" :=
           Json (PDict (Dict.set "last_updated" (PStr now)
                          (Dict.set "auto_fix_queue"
                             (PList (upsert "issue_number"
                                       (AutoFixState.issue_number self)
                                       (AutoFixState.index_entry self) qs))
                             idx))) ]> fs).
Proof.
  intros Hidx Hqs Hwf. unfold AutoFixState._update_index.
  rewrite (read_index _ _ _ _ Hidx). cbn [mbind result_bind py_get].
  unfold entries_of in Hqs. rewrite Hqs.
  cbv zeta. cbn [py_iter mbind result_bind].
  rewrite (next_where_entries "issue_number" (AutoFixState.issue_number self) qs Hwf).
  cbn [mbind result_bind].
  rewrite (found_truthy "issue_number" (AutoFixState.issue_number self) qs Hwf). unfold upsert.
  destruct (existsb (matches "issue_number" (AutoFixState.issue_number self)) qs).
  - rewrite (traverse_entries "issue_number" (AutoFixState.issue_number self) (AutoFixState.index_entry self) qs Hwf). reflexivity.
  - reflexivity.
Qed.

Lemma PRReviewResult_update_index_wf (now : string) (self : PRReviewResult.t)
    (pr_dir : path) (fs fs' : store) :
  PRReviewResult._update_index now self pr_dir fs = Ok fs' ->
  exists idx rs,
    index_before [("reviews", PList []); ("last_updated", PNone)]
      (fs !! (pr_dir // "index.json")) idx
    /\ entries_of "reviews" idx rs
    /\ Forall (fun r => has_key "pr_number" r = true) rs.
Proof.
  unfold PRReviewResult._update_index, json_load, index_before, entries_of.
  cbv zeta.
  destruct (fs !! (pr_dir // "index.json")) as [[v | text] |] eqn:Hp.
  - rewrite (exists_Some _ _ _ Hp).
    destruct v as [| | | | | |idx]; try discriminate.
    cbn [mbind result_bind py_get].
    destruct (py_iter _) as [items|] eqn:Hiter; cbn [mbind result_bind];
      [| discriminate].
    destruct (next_where _ items) as [existing|] eqn:Hnext;
      cbn [mbind result_bind]; [| discriminate].
    match goal with
    | |- context [(if ?c then ?a else ?b) ≫= _] =>
        destruct (if c then a else b) as [queue|] eqn:Hout
    end; cbn [mbind result_bind py_setitem]; [| discriminate].
    intros _.
    destruct (upsert_steps_inv _ _ _ _ _ _ _ Hiter Hnext Hout) as [Hq Hwf].
    exists idx, items. split; [reflexivity |]. split; [exact Hq | exact Hwf].
  - rewrite (exists_Some _ _ _ Hp). discriminate.
  - rewrite (exists_None _ _ Hp). intros _.
    eexists _, []. split; [reflexivity |]. split; [reflexivity | constructor].
Qed.

Lemma AutoFixState_update_index_wf (now : string) (self : AutoFixState.t)
    (issues_dir : path) (fs fs' : store) :
  AutoFixState._update_index now self issues_dir fs = Ok fs' ->
  exists idx qs,
    index_before [("triaged", PList []); ("auto_fix_queue", PList []);
                  ("last_updated", PNone)]
      (fs !! (issues_dir // "index.json")) idx
    /\ entries_of "auto_fix_queue" idx qs
    /\ Forall (fun r => has_key "issue_number" r = true) qs.
Proof.
  unfold AutoFixState._update_index, json_load, index_before, entries_of.
  cbv zeta.
  destruct (fs !! (issues_dir // "index.json")) as [[v | text] |] eqn:Hp.
  - rewrite (exists_Some _ _ _ Hp).
    destruct v as [| | | | | |idx]; try discriminate.
    cbn [mbind result_bind py_get].
    destruct (py_iter _) as [items|] eqn:Hiter; cbn [mbind result_bind];
      [| discriminate].
    destruct (next_where _ items) as [existing|] eqn:Hnext;
      cbn [mbind result_bind]; [| discriminate].
    match goal with
    | |- context [(if ?c then ?a else ?b) ≫= _] =>
        destruct (if c then a else b) as [queue|] eqn:Hout
    end; cbn [mbind result_bind py_setitem]; [| discriminate].
    intros _.
    destruct (upsert_steps_inv _ _ _ _ _ _ _ Hiter Hnext Hout) as [Hq Hwf].
    exists idx, items. split; [reflexivity |]. split; [exact Hq | exact Hwf].
  - rewrite (exists_Some _ _ _ Hp). discriminate.
  - rewrite (exists_None _ _ Hp). intros _.
    eexists _, []. split; [reflexivity |]. split; [reflexivity | constructor].
Qed.

Lemma review_file_not_index (p : path) (x : string) :
  p // ("review_" ++ x ++ ".json") <> p // "index.json".
Proof.
  unfold joinpath. intros Heq. apply app_inv_head in Heq. discriminate Heq.
Qed.

Lemma autofix_file_not_index (p : path) (x : string) :
  p // ("autofix_" ++ x ++ ".json") <> p // "index.json".
Proof.
  unfold joinpath. intros Heq. apply app_inv_head in Heq. discriminate Heq.
Qed.

Lemma PRReviewResult_save_ok `{Runtime} (now : string) (self : PRReviewResult.t)
    (github_dir : path) (fs : store) (idx : dict) (rs : list pyval) :
  index_before [("reviews", PList []); ("last_updated", PNone)]
    (fs !! (github_dir // "pr" // "index.json")) idx ->
  entries_of "reviews" idx rs ->
  Forall (fun r => has_key "pr_number" r = true) rs ->
  exists fs',
    PRReviewResult.save now self github_dir fs = Ok fs'
    /\ fs' !! (github_dir // "pr" // "index.json")
       = Some (Json (PDict (Dict.set "last_updated" (PStr now)
                              (Dict.set "reviews"
                                 (PList (upsert "pr_number"
                                           (PRReviewResult.pr_number self)
                                           (PRReviewResult.index_entry self) rs))
                                 idx)))).
Proof.
  intros Hidx Hrs Hwf. unfold PRReviewResult.save, mkdir, json_dump.
  eexists. split.
  - apply (PRReviewResult_update_index_ok now self _ _ idx rs); [| exact Hrs | exact Hwf].
    rewrite lookup_insert_ne by apply review_file_not_index. exact Hidx.
  - apply lookup_insert_eq.
Qed.

Lemma AutoFixState_save_ok `{Runtime} (now : string) (self : AutoFixState.t)
    (github_dir : path) (fs : store) (idx : dict) (qs : list pyval) :
  index_before [("triaged", PList []); ("auto_fix_queue", PList []);
                ("last_updated", PNone)]
    (fs !! (github_dir // "issues" // "index.json")) idx ->
  entries_of "auto_fix_queue" idx qs ->
  Forall (fun q => has_key "issue_number" q = true) qs ->
  exists fs',
    AutoFixState.save now self github_dir fs = Ok fs'
    /\ fs' !! (github_dir // "issues" // "index.json")
       = Some (Json (PDict (Dict.set "last_updated" (PStr now)
                              (Dict.set "auto_fix_queue"
                                 (PList (upsert "issue_number"
                                           (AutoFixState.issue_number self)
                                           (AutoFixState.index_entry self) qs))
                                 idx)))).
Proof.
  intros Hidx Hqs Hwf. unfold AutoFixState.save, mkdir, json_dump.
  eexists. split.
  - apply (AutoFixState_update_index_ok now self _ _ idx qs); [| exact Hqs | exact Hwf].
    rewrite lookup_insert_ne by apply autofix_file_not_index. exact Hidx.
  - apply lookup_insert_eq.
Qed.

(** Three saves into a directory without an index: pull request 1, pull
    request 2, pull request 1 again. *)
Lemma three_saves `{Runtime} (now1 now2 now3 : string)
    (r1 r2 r1' : PRReviewResult.t) (github_dir : path) (fs : store) :
  fs !! (github_dir // "pr" // "index.json") = None ->
  PRReviewResult.pr_number r1 = PInt 1 ->
  PRReviewResult.pr_number r2 = PInt 2 ->
  PRReviewResult.pr_number r1' = PInt 1 ->
  exists fs3,
    (fs1 ← PRReviewResult.save now1 r1 github_dir fs;
     fs2 ← PRReviewResult.save now2 r2 github_dir fs1;
     PRReviewResult.save now3 r1' github_dir fs2) = Ok fs3
    /\ fs3 !! (github_dir // "pr" // "index.json")
       = Some (Json (PDict [ ("reviews",
                               PList [ PRReviewResult.index_entry r1';
                                       PRReviewResult.index_entry r2 ]);
                             ("last_updated", PStr now3) ])).
Proof.
  intros Hnone H1 H2 H1'.
  destruct (PRReviewResult_save_ok now1 r1 github_dir fs _ []
              ltac:(unfold index_before; rewrite Hnone; reflexivity)
              eq_refl ltac:(constructor)) as (fs1 & Hs1 & Hi1).
  rewrite Hs1. cbn [mbind result_bind].
  destruct (PRReviewResult_save_ok now2 r2 github_dir fs1 _
              [PRReviewResult.index_entry r1]
              ltac:(unfold index_before; rewrite Hi1; reflexivity)
              eq_refl ltac:(repeat constructor)) as (fs2 & Hs2 & Hi2).
  rewrite Hs2. cbn [mbind result_bind].
  assert (Hu2 : upsert "pr_number" (PRReviewResult.pr_number r2)
                  (PRReviewResult.index_entry r2) [PRReviewResult.index_entry r1]
                = [PRReviewResult.index_entry r1; PRReviewResult.index_entry r2]).
  { unfold upsert, matches. simpl. rewrite H1, H2. reflexivity. }
  rewrite Hu2 in Hi2.
  destruct (PRReviewResult_save_ok now3 r1' github_dir fs2 _
              [PRReviewResult.index_entry r1; PRReviewResult.index_entry r2]
              ltac:(unfold index_before; rewrite Hi2; reflexivity)
              eq_refl ltac:(repeat constructor)) as (fs3 & Hs3 & Hi3).
  exists fs3. split; [exact Hs3 |].
  rewrite Hi3. unfold upsert, matches. simpl. rewrite H1, H2, H1'. reflexivity.
Qed.

(** C3.  On an index whose entry list is a list of entries carrying the
    identifier key, [save] succeeds and leaves in the index file the index
    it started from with the entry list upserted and [last_updated]
    stamped, for reviews and for auto-fix states alike.  The upsert
    appends the new entry when no entry carries the record's identifier;
    otherwise the list keeps its length and every entry its position, the
    entries with that identifier being replaced by the new one.  In
    particular, saving pull requests 1 and 2 and then 1 again into a
    directory without an index leaves exactly two entries: the one of the
    last save of 1, then the one of 2.  The condition on the index is also
    necessary: [save] returns only on such an index. *)
Theorem C3_index_upsert `{Runtime} :
  (forall now self github_dir fs idx rs,
     index_before [("reviews", PList []); ("last_updated", PNone)]
       (fs !! (github_dir // "pr" // "index.json")) idx ->
     entries_of "reviews" idx rs ->
     Forall (fun r => has_key "pr_number" r = true) rs ->
     exists fs',
       PRReviewResult.save now self github_dir fs = Ok fs'
       /\ fs' !! (github_dir // "pr" // "index.json")
          = Some (Json (PDict
              (Dict.set "last_updated" (PStr now)
                 (Dict.set "reviews"
                    (PList (upsert "pr_number" (PRReviewResult.pr_number self)
                              (PRReviewResult.index_entry self) rs))
                    idx)))))
  /\ (forall now self github_dir fs idx qs,
        index_before [("triaged", PList []); ("auto_fix_queue", PList []);
                      ("last_updated", PNone)]
          (fs !! (github_dir // "issues" // "index.json")) idx ->
        entries_of "auto_fix_queue" idx qs ->
        Forall (fun q => has_key "issue_number" q = true) qs ->
        exists fs',
          AutoFixState.save now self github_dir fs = Ok fs'
          /\ fs' !! (github_dir // "issues" // "index.json")
             = Some (Json (PDict
                 (Dict.set "last_updated" (PStr now)
                    (Dict.set "auto_fix_queue"
                       (PList (upsert "issue_number"
                                 (AutoFixState.issue_number self)
                                 (AutoFixState.index_entry self) qs))
                       idx)))))
  /\ (forall key ident entry rs,
        (existsb (matches key ident) rs = false ->
         upsert key ident entry rs = (rs ++ [entry])%list)
        /\ (existsb (matches key ident) rs = true ->
            length (upsert key ident entry rs) = length rs
            /\ forall i r, rs !! i = Some r ->
                 upsert key ident entry rs !! i
                 = Some (if matches key ident r then entry else r)))
  /\ (forall now1 now2 now3 r1 r2 r1' github_dir fs,
        fs !! (github_dir // "pr" // "index.json") = None ->
        PRReviewResult.pr_number r1 = PInt 1 ->
        PRReviewResult.pr_number r2 = PInt 2 ->
        PRReviewResult.pr_number r1' = PInt 1 ->
        exists fs3,
          (fs1 ← PRReviewResult.save now1 r1 github_dir fs;
           fs2 ← PRReviewResult.save now2 r2 github_dir fs1;
           PRReviewResult.save now3 r1' github_dir fs2) = Ok fs3
          /\ fs3 !! (github_dir // "pr" // "index.json")
             = Some (Json (PDict [ ("reviews",
                                     PList [ PRReviewResult.index_entry r1';
                                             PRReviewResult.index_entry r2 ]);
                                   ("last_updated", PStr now3) ])))
  /\ (forall now self github_dir fs fs',
        PRReviewResult.save now self github_dir fs = Ok fs' ->
        exists idx rs,
          index_before [("reviews", PList []); ("last_updated", PNone)]
            (fs !! (github_dir // "pr" // "index.json")) idx
          /\ entries_of "reviews" idx rs
          /\ Forall (fun r => has_key "pr_number" r = true) rs)
  /\ (forall now self github_dir fs fs',
        AutoFixState.save now self github_dir fs = Ok fs' ->
        exists idx qs,
          index_before [("triaged", PList []); ("auto_fix_queue", PList []);
                        ("last_updated", PNone)]
            (fs !! (github_dir // "issues" // "index.json")) idx
          /\ entries_of "auto_fix_queue" idx qs
          /\ Forall (fun q => has_key "issue_number" q = true) qs).
Proof.
  split; [| split; [| split; [| split; [| split]]]].
  - intros. eapply PRReviewResult_save_ok; eassumption.
  - intros. eapply AutoFixState_save_ok; eassumption.
  - intros key ident entry rs. split.
    + intros Hno. unfold upsert. rewrite Hno. reflexivity.
    + intros Hyes. split.
      * apply upsert_length_found. exact Hyes.
      * intros i r Hi. apply upsert_lookup_found; assumption.
  - intros. eapply three_saves; eassumption.
  - intros now self github_dir fs fs' Hsave.
    unfold PRReviewResult.save, mkdir, json_dump in Hsave.
    apply PRReviewResult_update_index_wf in Hsave as (idx & rs & Hidx & Hrs & Hwf).
    rewrite lookup_insert_ne in Hidx by apply review_file_not_index. eauto.
  - intros now self github_dir fs fs' Hsave.
    unfold AutoFixState.save, mkdir, json_dump in Hsave.
    apply AutoFixState_update_index_wf in Hsave as (idx & qs & Hidx & Hqs & Hwf).
    rewrite lookup_insert_ne in Hidx by apply autofix_file_not_index. eauto.
Qed.

(** C3 at three concrete reviews: the second save of pull request 1
    changes its status from [comment] to [approve]. *)
Lemma C3_witness :
  let review n status stamp :=
    PRReviewResult.mk (PInt n) (PStr "o/r") (PBool true) [] (PStr "")
      (PStr status) PNone (PStr stamp) PNone in
  exists fs3,
    (fs1 ← @PRReviewResult.save decimal_format "2024-01-01T00:00:01"
             (review 1 "comment" "2024-01-01T00:00:00") ["gh"] ∅;
     fs2 ← @PRReviewResult.save decimal_format "2024-01-02T00:00:01"
             (review 2 "request_changes" "2024-01-02T00:00:00") ["gh"] fs1;
     @PRReviewResult.save decimal_format "2024-01-03T00:00:01"
       (review 1 "approve" "2024-01-03T00:00:00") ["gh"] fs2) = Ok fs3
    /\ fs3 !! (["gh"] // "pr" // "index.json")
       = Some (Json (PDict
           [ ("reviews",
               PList [ PDict [ ("pr_number", PInt 1); ("repo", PStr "o/r");
                               ("overall_status", PStr "approve");
                               ("findings_count", PInt 0);
                               ("reviewed_at", PStr "2024-01-03T00:00:00") ];
                       PDict [ ("pr_number", PInt 2); ("repo", PStr "o/r");
                               ("overall_status", PStr "request_changes");
                               ("findings_count", PInt 0);
                               ("reviewed_at", PStr "2024-01-02T00:00:00") ] ]);
             ("last_updated", PStr "2024-01-03T00:00:01") ])).
Proof.
  intros review.
  destruct (@C3_index_upsert decimal_format) as (_ & _ & _ & Hthree & _).
  apply (Hthree "2024-01-01T00:00:01" "2024-01-02T00:00:01"
           "2024-01-03T00:00:01" (review 1 "comment" "2024-01-01T00:00:00")
           (review 2 "request_changes" "2024-01-02T00:00:00")
           (review 1 "approve" "2024-01-03T00:00:00") ["gh"] ∅).
  - apply lookup_empty.
  - reflexivity.
  - reflexivity.
  - reflexivity.
Defined.

(** ** What the auto-fix index update leaves alone *)

Lemma get_set_ne (k k' : string) (v : pyval) (d : dict) :
  k <> k' -> Dict.get k (Dict.set k' v d) = Dict.get k d.
Proof.
  intros Hne. induction d as [|[k0 v0] d IH]; simpl.
  - destruct (String.eqb_spec k k'); [contradiction | reflexivity].
  - destruct (String.eqb_spec k' k0) as [-> | Hk0]; simpl.
    + destruct (String.eqb_spec k k0); [contradiction | reflexivity].
    + destruct (String.eqb_spec k k0); [reflexivity | exact IH].
Qed.

Lemma filter_set (p : string * pyval -> bool) (k : string) (v : pyval) (d : dict) :
  (forall x, p (k, x) = false) ->
  List.filter p (Dict.set k v d) = List.filter p d.
Proof.
  intros Hp. induction d as [|[k0 v0] d IH]; simpl.
  - rewrite Hp. reflexivity.
  - destruct (String.eqb_spec k k0) as [<- | Hk0]; simpl.
    + rewrite !Hp. reflexivity.
    + rewrite IH. reflexivity.
Qed.

Lemma AutoFixState_update_index_inv (now : string) (self : AutoFixState.t)
    (issues_dir : path) (fs fs' : store) :
  AutoFixState._update_index now self issues_dir fs = Ok fs' ->
  exists idx queue,
    index_before [("triaged", PList []); ("auto_fix_queue", PList []);
                  ("last_updated", PNone)]
      (fs !! (issues_dir // "index.json")) idx
    /\ fs' = <[ issues_dir // "index.json" :=
                Json (PDict (Dict.set "last_updated" (PStr now)
                               (Dict.set "auto_fix_queue" queue idx))) ]> fs.
Proof.
  intros Hupd.
  destruct (AutoFixState_update_index_wf now self issues_dir fs fs' Hupd)
    as (idx & qs & Hidx & Hqs & Hwf).
  rewrite (AutoFixState_update_index_ok now self issues_dir fs idx qs Hidx Hqs Hwf)
    in Hupd.
  injection Hupd as <-. eauto.
Qed.

(** C10.  Whenever [AutoFixState.save] returns, the index file it leaves
    is the index it started from (the document in [issues/index.json], or
    the skeleton when there was no file) with the values at
    ["auto_fix_queue"] and ["last_updated"] set: every other key, ["triaged"]
    and unknown keys alike, keeps its value and its place among the other
    keys.  And it does return on an index whose queue is a list of entries
    that carry ["issue_number"]. *)
Theorem C10_index_frame `{Runtime} (now : string) (self : AutoFixState.t)
    (github_dir : path) (fs : store) :
  let index_file := github_dir // "issues" // "index.json" in
  let skeleton := [("triaged", PList []); ("auto_fix_queue", PList []);
                   ("last_updated", PNone)] in
  (forall fs', AutoFixState.save now self github_dir fs = Ok fs' ->
     exists idx idx',
       index_before skeleton (fs !! index_file) idx
       /\ fs' !! index_file = Some (Json (PDict idx'))
       /\ (forall k, k <> "auto_fix_queue" -> k <> "last_updated" ->
             Dict.get k idx' = Dict.get k idx)
       /\ List.filter other_key idx' = List.filter other_key idx)
  /\ (forall idx qs,
        index_before skeleton (fs !! index_file) idx ->
        entries_of "auto_fix_queue" idx qs ->
        Forall (fun q => has_key "issue_number" q = true) qs ->
        exists fs', AutoFixState.save now self github_dir fs = Ok fs').
Proof.
  intros index_file skeleton. split.
  - intros fs' Hsave. unfold AutoFixState.save, mkdir, json_dump in Hsave.
    apply AutoFixState_update_index_inv in Hsave as (idx & queue & Hidx & ->).
    rewrite lookup_insert_ne in Hidx by apply autofix_file_not_index.
    exists idx. eexists. split; [exact Hidx |].
    split; [apply lookup_insert_eq |]. split.
    + intros k Hq Hl. rewrite !get_set_ne by assumption. reflexivity.
    + rewrite !filter_set by (intros x; reflexivity). reflexivity.
  - intros idx qs Hidx Hqs Hwf.
    destruct (AutoFixState_save_ok now self github_dir fs idx qs Hidx Hqs Hwf)
      as (fs' & Hsave & _).
    exists fs'. exact Hsave.
Qed.

(** C10 at an index that holds a triaged list and a key the module does
    not know: both survive the save of an auto-fix state. *)
Lemma C10_witness :
  let index_file := ["gh"] // "issues" // "index.json" in
  let fs := <[ index_file :=
               Json (PDict [ ("triaged", PList [PInt 7]); ("schema", PInt 2);
                             ("auto_fix_queue", PList []);
                             ("last_updated", PNone) ]) ]> (∅ : store) in
  let s := AutoFixState.mk (PInt 42) (PStr "https://x/42") (PStr "o/r")
             AutoFixStatus.BUILDING PNone PNone PNone PNone (PList []) PNone
             (PStr "2024-01-01T00:00:00") (PStr "2024-01-01T00:05:00") in
  exists fs' idx',
    @AutoFixState.save decimal_format "2024-01-01T00:05:01" s ["gh"] fs = Ok fs'
    /\ fs' !! index_file = Some (Json (PDict idx'))
    /\ Dict.get "triaged" idx' = Some (PList [PInt 7])
    /\ Dict.get "schema" idx' = Some (PInt 2).
Proof.
  intros index_file fs s.
  destruct (@C10_index_frame decimal_format "2024-01-01T00:05:01" s ["gh"] fs)
    as [Hframe Hruns].
  assert (Hidx : fs !! index_file
                 = Some (Json (PDict [ ("triaged", PList [PInt 7]);
                                       ("schema", PInt 2);
                                       ("auto_fix_queue", PList []);
                                       ("last_updated", PNone) ])))
    by apply lookup_insert_eq.
  destruct (Hruns _ [] ltac:(unfold index_before; fold index_file; rewrite Hidx;
                             reflexivity) eq_refl ltac:(constructor))
    as [fs' Hsave].
  destruct (Hframe fs' Hsave) as (idx & idx' & Hbefore & Hafter & Hget & _).
  unfold index_before in Hbefore. fold index_file in Hbefore.
  rewrite Hidx in Hbefore. injection Hbefore as <-.
  exists fs', idx'. split; [exact Hsave |]. split; [exact Hafter |].
  split; rewrite Hget by discriminate; reflexivity.
Defined.

(** ** The spec's worked examples *)

Example py_eq_across_numbers :
  py_eq (PInt 1) (PFloat (S754_finite false 1 0)) = true
  /\ py_eq (PInt 1) (PFloat (S754_finite false 1 (-1))) = false
  /\ py_eq (PBool true) (PInt 1) = true
  /\ py_eq (PStr "1") (PInt 1) = false
  /\ py_eq (PFloat S754_nan) (PFloat S754_nan) = false.
Proof. repeat split. Qed.

Example review_roundtrip_example :
  let finding :=
    PRReviewFinding.mk (PStr "f1") ReviewSeverity.CRITICAL
      ReviewCategory.SECURITY (PStr "SQL injection") (PStr "unsanitised input")
      (PStr "db.py") (PInt 10) PNone PNone (PBool false) in
  let review :=
    PRReviewResult.mk (PInt 7) (PStr "o/r") (PBool true) [finding; finding]
      (PStr "two findings") (PStr "request_changes") PNone
      (PStr "2024-01-01T00:00:00") PNone in
  PRReviewResult.from_dict "2030-01-01T00:00:00"
    (PDict (PRReviewResult.to_dict review)) = Ok review.
Proof. reflexivity. Qed.

(** [TriageResult.load(dir, 999)] on an empty directory. *)
Example triage_load_empty :
  @TriageResult.load decimal_format "2024-01-01T00:00:00" ["gh"] (PInt 999) ∅
  = Ok None.
Proof.
  unfold TriageResult.load. rewrite exists_None by apply lookup_empty.
  reflexivity.
Qed.

(** Saving [AutoFixState(issue_number=42, issue_url="https://x/42",
    repo="o/r")] after [update_status(AutoFixStatus.BUILDING)]. *)
Example autofix_save_example :
  let s := AutoFixState.mk (PInt 42) (PStr "https://x/42") (PStr "o/r")
             AutoFixStatus.PENDING PNone PNone PNone PNone (PList []) PNone
             (PStr "2024-01-01T00:00:00") (PStr "2024-01-01T00:00:00") in
  let s' := AutoFixState.update_status "2024-01-01T00:05:00"
              AutoFixStatus.BUILDING s in
  exists fs',
    @AutoFixState.save decimal_format "2024-01-01T00:05:01" s' ["gh"] ∅ = Ok fs'
    /\ (exists d, fs' !! ["gh"; "issues"; "autofix_42.json"] = Some (Json (PDict d))
                  /\ Dict.get "status" d = Some (PStr "building"))
    /\ fs' !! ["gh"; "issues"; "index.json"]
       = Some (Json (PDict
           [ ("triaged", PList []);
             ("auto_fix_queue",
               PList [ PDict [ ("issue_number", PInt 42); ("repo", PStr "o/r");
                               ("status", PStr "building"); ("spec_id", PNone);
                               ("pr_number", PNone);
                               ("updated_at", PStr "2024-01-01T00:05:00") ] ]);
             ("last_updated", PStr "2024-01-01T00:05:01") ])).
Proof.
  intros s s'. eexists. split; [| split].
  - unfold AutoFixState.save, mkdir, json_dump.
    apply (AutoFixState_update_index_ok _ _ _ _
             [("triaged", PList []); ("auto_fix_queue", PList []);
              ("last_updated", PNone)] []).
    + unfold index_before.
      rewrite lookup_insert_ne by apply autofix_file_not_index.
      rewrite lookup_empty. reflexivity.
    + reflexivity.
    + constructor.
  - eexists. split.
    + rewrite lookup_insert_ne by (intros Heq; discriminate Heq).
      apply (lookup_insert_eq (M := gmap path)).
    + reflexivity.
  - apply (lookup_insert_eq (M := gmap path)).
Qed.

(** * Further properties of the module *)

(** ** Saving, then loading *)

Lemma PRReviewResult_update_index_inv (now : string) (self : PRReviewResult.t)
    (pr_dir : path) (fs fs' : store) :
  PRReviewResult._update_index now self pr_dir fs = Ok fs' ->
  exists index, fs' = <[ pr_dir // "index.json" := Json index ]> fs.
Proof.
  intros Hupd.
  destruct (PRReviewResult_update_index_wf now self pr_dir fs fs' Hupd)
    as (idx & rs & Hidx & Hrs & Hwf).
  rewrite (PRReviewResult_update_index_ok now self pr_dir fs idx rs Hidx Hrs Hwf)
    in Hupd.
  injection Hupd as <-. eauto.
Qed.

Lemma PRReviewResult_save_inv `{Runtime} (now : string) (self : PRReviewResult.t)
    (github_dir : path) (fs fs' : store) :
  PRReviewResult.save now self github_dir fs = Ok fs' ->
  exists index,
    fs' = <[ github_dir // "pr" // "index.json" := Json index ]>
            (<[ github_dir // "pr"
                  // ("review_" ++ format_value (PRReviewResult.pr_number self)
                      ++ ".json")
                := Json (PDict (PRReviewResult.to_dict self)) ]> fs).
Proof.
  unfold PRReviewResult.save, mkdir, json_dump. intros Hupd.
  apply PRReviewResult_update_index_inv in Hupd as [index ->]. eauto.
Qed.

Lemma AutoFixState_save_inv `{Runtime} (now : string) (self : AutoFixState.t)
    (github_dir : path) (fs fs' : store) :
  AutoFixState.save now self github_dir fs = Ok fs' ->
  exists index,
    fs' = <[ github_dir // "issues" // "index.json" := Json index ]>
            (<[ github_dir // "issues"
                  // ("autofix_" ++ format_value (AutoFixState.issue_number self)
                      ++ ".json")
                := Json (PDict (AutoFixState.to_dict self)) ]> fs).
Proof.
  unfold AutoFixState.save, mkdir, json_dump. intros Hupd.
  apply AutoFixState_update_index_inv in Hupd as (idx & queue & _ & ->). eauto.
Qed.

Lemma load_of_file {A} (decode : pyval -> result A) (p : path) (fs : store)
    (v : pyval) (x : A) :
  fs !! p = Some (Json v) -> decode v = Ok x ->
  (if negb (exists_ p fs) then Ok None
   else data ← json_load p fs; r ← decode data; Ok (Some r)) = Ok (Some x).
Proof.
  intros Hp Hx. rewrite (exists_Some _ _ _ Hp). unfold json_load.
  rewrite Hp. cbn [negb mbind result_bind]. rewrite Hx. reflexivity.
Qed.

(** X1.  A review that [save] has written is what [load] returns for its
    [pr_number], whatever the review file held before and whatever the
    clock reads at loading time. *)
Theorem X1_review_save_load `{Runtime} (now now' : string)
    (self : PRReviewResult.t) (github_dir : path) (fs fs' : store)
    (Hsave : PRReviewResult.save now self github_dir fs = Ok fs') :
  PRReviewResult.load now' github_dir (PRReviewResult.pr_number self) fs'
  = Ok (Some self).
Proof.
  apply PRReviewResult_save_inv in Hsave as [index ->].
  unfold PRReviewResult.load.
  apply (load_of_file _ _ _ (PDict (PRReviewResult.to_dict self))).
  - rewrite lookup_insert_ne
      by (intros Heq; symmetry in Heq; exact (review_file_not_index _ _ Heq)).
    apply lookup_insert_eq.
  - apply PRReviewResult_roundtrip.
Qed.

Lemma X1_witness :
  let review :=
    PRReviewResult.mk (PInt 7) (PStr "o/r") (PBool true)
      [ PRReviewFinding.mk (PStr "f1") ReviewSeverity.LOW ReviewCategory.DOCS
          (PStr "typo") (PStr "d") (PStr "README.md") (PInt 3) PNone PNone
          (PBool true) ]
      (PStr "one nit") (PStr "comment") PNone (PStr "2024-01-01T00:00:00")
      PNone in
  exists fs',
    @PRReviewResult.save decimal_format "2024-01-01T00:00:01" review ["gh"] ∅
    = Ok fs'
    /\ @PRReviewResult.load decimal_format "2024-02-02T00:00:00" ["gh"] (PInt 7) fs'
       = Ok (Some review).
Proof.
  intros review.
  destruct (@PRReviewResult_save_ok decimal_format "2024-01-01T00:00:01" review
              ["gh"] ∅ _ [] ltac:(unfold index_before; rewrite lookup_empty;
                                  reflexivity) eq_refl ltac:(constructor))
    as (fs' & Hsave & _).
  exists fs'. split; [exact Hsave |].
  exact (@X1_review_save_load decimal_format _ "2024-02-02T00:00:00" review
           ["gh"] ∅ fs' Hsave).
Defined.


(** X3.  An auto-fix state that [save] has written is what [load] returns
    for its [issue_number]. *)
Theorem X3_autofix_save_load `{Runtime} (now now_c now_u : string)
    (self : AutoFixState.t) (github_dir : path) (fs fs' : store)
    (Hsave : AutoFixState.save now self github_dir fs = Ok fs') :
  AutoFixState.load now_c now_u github_dir (AutoFixState.issue_number self) fs'
  = Ok (Some self).
Proof.
  apply AutoFixState_save_inv in Hsave as [index ->].
  unfold AutoFixState.load.
  apply (load_of_file _ _ _ (PDict (AutoFixState.to_dict self))).
  - rewrite lookup_insert_ne
      by (intros Heq; symmetry in Heq; exact (autofix_file_not_index _ _ Heq)).
    apply lookup_insert_eq.
  - apply AutoFixState_roundtrip.
Qed.

Lemma X3_witness :
  let s := AutoFixState.mk (PInt 42) (PStr "https://x/42") (PStr "o/r")
             AutoFixStatus.QA_REVIEW (PStr "spec-9") PNone (PInt 77) PNone
             (PList [PStr "c1"]) PNone (PStr "2024-01-01T00:00:00")
             (PStr "2024-01-01T00:05:00") in
  exists fs',
    @AutoFixState.save decimal_format "2024-01-01T00:05:01" s ["gh"] ∅ = Ok fs'
    /\ @AutoFixState.load decimal_format "a" "b" ["gh"] (PInt 42) fs'
       = Ok (Some s).
Proof.
  intros s.
  destruct (@AutoFixState_save_ok decimal_format "2024-01-01T00:05:01" s
              ["gh"] ∅ _ [] ltac:(unfold index_before; rewrite lookup_empty;
                                  reflexivity) eq_refl ltac:(constructor))
    as (fs' & Hsave & _).
  exists fs'. split; [exact Hsave |].
  exact (@X3_autofix_save_load decimal_format _ "a" "b" s ["gh"] ∅ fs' Hsave).
Defined.

(** X4.  Settings written by [save_settings] and read back by
    [load_settings] give the saved configuration with its three
    caller-supplied fields replaced by the arguments of the load: the
    [repo] that was written is not read back. *)
Theorem X4_settings_save_load (cfg : GitHubRunnerConfig.t) (github_dir : path)
    (a_token a_repo a_bot_token : pyval) (fs : store) :
  GitHubRunnerConfig.load_settings github_dir a_token a_repo a_bot_token
    (GitHubRunnerConfig.save_settings cfg github_dir fs)
  = Ok (GitHubRunnerConfig.mk a_token a_repo a_bot_token
          (GitHubRunnerConfig.auto_fix_enabled cfg)
          (GitHubRunnerConfig.auto_fix_labels cfg)
          (GitHubRunnerConfig.require_human_approval cfg)
          (GitHubRunnerConfig.triage_enabled cfg)
          (GitHubRunnerConfig.duplicate_threshold cfg)
          (GitHubRunnerConfig.spam_threshold cfg)
          (GitHubRunnerConfig.feature_creep_threshold cfg)
          (GitHubRunnerConfig.enable_triage_comments cfg)
          (GitHubRunnerConfig.pr_review_enabled cfg)
          (GitHubRunnerConfig.auto_post_reviews cfg)
          (GitHubRunnerConfig.allow_fix_commits cfg)
          (GitHubRunnerConfig.model cfg)
          (GitHubRunnerConfig.thinking_level cfg)).
Proof.
  unfold GitHubRunnerConfig.load_settings, GitHubRunnerConfig.save_settings,
    mkdir, json_dump, json_load.
  rewrite (exists_Some _ _ _ (lookup_insert_eq _ _ _)).
  rewrite lookup_insert_eq. reflexivity.
Qed.

(** ** What a save changes in the store and in the index *)

Lemma get_set_eq (k : string) (v : pyval) (d : dict) :
  Dict.get k (Dict.set k v d) = Some v.
Proof.
  induction d as [|[k0 v0] d IH]; simpl.
  - rewrite String.eqb_refl. reflexivity.
  - destruct (String.eqb_spec k k0) as [-> | Hk0]; simpl.
    + rewrite String.eqb_refl. reflexivity.
    + destruct (String.eqb_spec k k0); [contradiction | exact IH].
Qed.

Lemma set_get_id (k : string) (v : pyval) (d : dict) :
  Dict.get k d = Some v -> Dict.set k v d = d.
Proof.
  induction d as [|[k0 v0] d IH]; simpl.
  - discriminate.
  - destruct (String.eqb_spec k k0) as [-> | Hk0].
    + intros [= ->]. reflexivity.
    + intros Hget. rewrite (IH Hget). reflexivity.
Qed.

Lemma entries_after (key : string) (now : string) (rs : list pyval) (idx : dict) :
  key <> "last_updated" ->
  entries_of key (Dict.set "last_updated" (PStr now)
                    (Dict.set key (PList rs) idx)) rs.
Proof.
  intros Hne. unfold entries_of.
  rewrite get_set_ne by exact Hne. rewrite get_set_eq. reflexivity.
Qed.

Lemma PRReviewResult_save_entries `{Runtime} (now : string)
    (self : PRReviewResult.t) (github_dir : path) (fs fs' : store) :
  PRReviewResult.save now self github_dir fs = Ok fs' ->
  exists rs,
    review_entries fs github_dir rs
    /\ Forall (fun r => has_key "pr_number" r = true) rs
    /\ review_entries fs' github_dir
         (upsert "pr_number" (PRReviewResult.pr_number self)
            (PRReviewResult.index_entry self) rs).
Proof.
  intros Hsave. pose proof Hsave as Hsave'.
  unfold PRReviewResult.save, mkdir, json_dump in Hsave'.
  apply PRReviewResult_update_index_wf in Hsave' as (idx & rs & Hidx & Hrs & Hwf).
  rewrite lookup_insert_ne in Hidx by apply review_file_not_index.
  destruct (PRReviewResult_save_ok now self github_dir fs idx rs Hidx Hrs Hwf)
    as (fs'' & Hsave'' & Hindex).
  rewrite Hsave in Hsave''. injection Hsave'' as <-.
  exists rs. split; [exists idx; split; assumption |]. split; [exact Hwf |].
  eexists. split.
  - unfold index_before. rewrite Hindex. reflexivity.
  - apply entries_after. discriminate.
Qed.

Lemma AutoFixState_save_entries `{Runtime} (now : string)
    (self : AutoFixState.t) (github_dir : path) (fs fs' : store) :
  AutoFixState.save now self github_dir fs = Ok fs' ->
  exists qs,
    queue_entries fs github_dir qs
    /\ Forall (fun q => has_key "issue_number" q = true) qs
    /\ queue_entries fs' github_dir
         (upsert "issue_number" (AutoFixState.issue_number self)
            (AutoFixState.index_entry self) qs).
Proof.
  intros Hsave. pose proof Hsave as Hsave'.
  unfold AutoFixState.save, mkdir, json_dump in Hsave'.
  apply AutoFixState_update_index_wf in Hsave' as (idx & qs & Hidx & Hqs & Hwf).
  rewrite lookup_insert_ne in Hidx by apply autofix_file_not_index.
  destruct (AutoFixState_save_ok now self github_dir fs idx qs Hidx Hqs Hwf)
    as (fs'' & Hsave'' & Hindex).
  rewrite Hsave in Hsave''. injection Hsave'' as <-.
  exists qs. split; [exists idx; split; assumption |]. split; [exact Hwf |].
  eexists. split.
  - unfold index_before. rewrite Hindex. reflexivity.
  - apply entries_after. discriminate.
Qed.

Section UpsertFacts.

Variables (key : string) (ident entry : pyval).

Lemma upsert_In (rs : list pyval) : In entry (upsert key ident entry rs).
Proof.
  unfold upsert. destruct (existsb (matches key ident) rs) eqn:Hex.
  - apply existsb_exists in Hex as (r & Hin & Hr).
    apply in_map_iff. exists r. rewrite Hr. split; [reflexivity | exact Hin].
  - apply in_or_app. right. left. reflexivity.
Qed.

Hypothesis entry_matches : matches key ident entry = true.

Lemma upsert_others (rs : list pyval) :
  List.filter (fun r => negb (matches key ident r)) (upsert key ident entry rs)
  = List.filter (fun r => negb (matches key ident r)) rs.
Proof.
  unfold upsert. destruct (existsb (matches key ident) rs).
  - induction rs as [|r rs IH]; simpl; [reflexivity |].
    destruct (matches key ident r) eqn:Hr; simpl.
    + rewrite entry_matches. simpl. exact IH.
    + rewrite Hr. simpl. rewrite IH. reflexivity.
  - rewrite List.filter_app. simpl. rewrite entry_matches. simpl.
    apply app_nil_r.
Qed.

Lemma upsert_same_count (rs : list pyval) :
  length (List.filter (matches key ident) (upsert key ident entry rs))
  = Nat.max 1 (length (List.filter (matches key ident) rs)).
Proof.
  unfold upsert. destruct (existsb (matches key ident) rs) eqn:Hex.
  - assert (Hmap : forall l,
      length (List.filter (matches key ident)
                (map (fun r => if matches key ident r then entry else r) l))
      = length (List.filter (matches key ident) l)).
    { induction l as [|r l IH]; simpl; [reflexivity |].
      destruct (matches key ident r) eqn:Hr; simpl.
      - rewrite entry_matches. simpl. rewrite IH. reflexivity.
      - rewrite Hr. exact IH. }
    rewrite Hmap.
    apply existsb_exists in Hex as (r & Hin & Hr).
    assert (Hin' : In r (List.filter (matches key ident) rs))
      by (apply filter_In; split; assumption).
    destruct (List.filter (matches key ident) rs) as [|x l]; [destruct Hin' |].
    simpl. reflexivity.
  - rewrite List.filter_app, length_app. simpl. rewrite entry_matches. simpl.
    assert (Hnone : List.filter (matches key ident) rs = []).
    { induction rs as [|r rs IH]; simpl in *; [reflexivity |].
      apply orb_false_iff in Hex as [Hr Hrs]. rewrite Hr. exact (IH Hrs). }
    rewrite Hnone. reflexivity.
Qed.

Lemma upsert_idempotent (rs : list pyval) :
  upsert key ident entry (upsert key ident entry rs) = upsert key ident entry rs.
Proof.
  unfold upsert. destruct (existsb (matches key ident) rs) eqn:Hex.
  - assert (Hex' : existsb (matches key ident)
                     (map (fun r => if matches key ident r then entry else r) rs)
                   = true).
    { apply existsb_exists in Hex as (r & Hin & Hr).
      apply existsb_exists. exists entry. split; [| exact entry_matches].
      apply in_map_iff. exists r. rewrite Hr. split; [reflexivity | exact Hin]. }
    rewrite Hex', map_map. apply map_ext. intros r.
    destruct (matches key ident r) eqn:Hr.
    + rewrite entry_matches. reflexivity.
    + rewrite Hr. reflexivity.
  - rewrite existsb_app. simpl. rewrite entry_matches, orb_true_r.
    rewrite map_app. simpl. rewrite entry_matches. f_equal.
    clear -Hex. induction rs as [|r rs IH]; simpl in *; [reflexivity |].
    apply orb_false_iff in Hex as [Hr Hrs]. rewrite Hr, (IH Hrs). reflexivity.
Qed.

Lemma upsert_has_key (rs : list pyval) :
  Forall (fun r => has_key key r = true) rs ->
  Forall (fun r => has_key key r = true) (upsert key ident entry rs).
Proof.
  assert (Hentry : has_key key entry = true).
  { unfold has_key. unfold matches in entry_matches.
    destruct (py_getitem entry key); [reflexivity | discriminate entry_matches]. }
  intros Hwf. unfold upsert. destruct (existsb (matches key ident) rs).
  - induction Hwf as [|r rs Hr _ IH]; simpl; constructor; [| exact IH].
    destruct (matches key ident r); assumption.
  - apply Forall_app. split; [exact Hwf | repeat constructor; exact Hentry].
Qed.

End UpsertFacts.

Lemma review_entry_matches (self : PRReviewResult.t) :
  matches "pr_number" (PRReviewResult.pr_number self)
    (PRReviewResult.index_entry self)
  = py_eq (PRReviewResult.pr_number self) (PRReviewResult.pr_number self).
Proof. reflexivity. Qed.

Lemma queue_entry_matches (self : AutoFixState.t) :
  matches "issue_number" (AutoFixState.issue_number self)
    (AutoFixState.index_entry self)
  = py_eq (AutoFixState.issue_number self) (AutoFixState.issue_number self).
Proof. reflexivity. Qed.

(** X5.  A successful [save] of a review or of an auto-fix state changes
    two files, the record's own and the index beside it, and nothing
    else; [TriageResult.save] changes the triage file only, so it never
    writes [issues/index.json]. *)
Theorem X5_save_touches_only_its_files `{Runtime} :
  (forall now self github_dir fs fs' p,
     PRReviewResult.save now self github_dir fs = Ok fs' ->
     p <> github_dir // "pr"
            // ("review_" ++ format_value (PRReviewResult.pr_number self)
                ++ ".json") ->
     p <> github_dir // "pr" // "index.json" ->
     fs' !! p = fs !! p)
  /\ (forall now self github_dir fs fs' p,
        AutoFixState.save now self github_dir fs = Ok fs' ->
        p <> github_dir // "issues"
               // ("autofix_" ++ format_value (AutoFixState.issue_number self)
                   ++ ".json") ->
        p <> github_dir // "issues" // "index.json" ->
        fs' !! p = fs !! p)
  /\ (forall self github_dir fs p,
        p <> github_dir // "issues"
               // ("triage_" ++ format_value (TriageResult.issue_number self)
                   ++ ".json") ->
        TriageResult.save self github_dir fs !! p = fs !! p)
  /\ (forall self github_dir fs,
        TriageResult.save self github_dir fs
          !! (github_dir // "issues" // "index.json")
        = fs !! (github_dir // "issues" // "index.json")).
Proof.
  split; [| split; [| split]].
  - intros now self github_dir fs fs' p Hsave Hp Hi.
    apply PRReviewResult_save_inv in Hsave as [index ->].
    rewrite !lookup_insert_ne by congruence. reflexivity.
  - intros now self github_dir fs fs' p Hsave Hp Hi.
    apply AutoFixState_save_inv in Hsave as [index ->].
    rewrite !lookup_insert_ne by congruence. reflexivity.
  - intros self github_dir fs p Hp.
    unfold TriageResult.save, mkdir, json_dump.
    rewrite lookup_insert_ne by congruence. reflexivity.
  - intros self github_dir fs.
    unfold TriageResult.save, mkdir, json_dump.
    apply lookup_insert_ne. unfold joinpath. intros Heq.
    apply app_inv_head in Heq. discriminate Heq.
Qed.

(** X6.  After a successful [save] the index lists the record's summary
    entry, for a review and for an auto-fix state. *)
Theorem X6_saved_record_is_indexed `{Runtime} :
  (forall now self github_dir fs fs',
     PRReviewResult.save now self github_dir fs = Ok fs' ->
     exists rs', review_entries fs' github_dir rs'
                 /\ In (PRReviewResult.index_entry self) rs')
  /\ (forall now self github_dir fs fs',
        AutoFixState.save now self github_dir fs = Ok fs' ->
        exists qs', queue_entries fs' github_dir qs'
                    /\ In (AutoFixState.index_entry self) qs').
Proof.
  split.
  - intros now self github_dir fs fs' Hsave.
    apply PRReviewResult_save_entries in Hsave as (rs & _ & _ & Hafter).
    eexists. split; [exact Hafter | apply upsert_In].
  - intros now self github_dir fs fs' Hsave.
    apply AutoFixState_save_entries in Hsave as (qs & _ & _ & Hafter).
    eexists. split; [exact Hafter | apply upsert_In].
Qed.

(** X7.  Saving a record never removes or reorders the index entries of
    other records, and never adds a second entry for its own identifier:
    when the identifier equals itself under [==], the entries with
    another identifier are the same list before and after, and the number
    of entries with this identifier is one if there was none and
    unchanged otherwise. *)
Theorem X7_save_keeps_other_entries `{Runtime} :
  (forall now self github_dir fs fs',
     PRReviewResult.save now self github_dir fs = Ok fs' ->
     py_eq (PRReviewResult.pr_number self) (PRReviewResult.pr_number self) = true ->
     exists rs rs',
       review_entries fs github_dir rs /\ review_entries fs' github_dir rs'
       /\ List.filter (fun r => negb (matches "pr_number"
                                        (PRReviewResult.pr_number self) r)) rs'
          = List.filter (fun r => negb (matches "pr_number"
                                          (PRReviewResult.pr_number self) r)) rs
       /\ length (List.filter (matches "pr_number"
                                 (PRReviewResult.pr_number self)) rs')
          = Nat.max 1 (length (List.filter (matches "pr_number"
                                              (PRReviewResult.pr_number self)) rs)))
  /\ (forall now self github_dir fs fs',
        AutoFixState.save now self github_dir fs = Ok fs' ->
        py_eq (AutoFixState.issue_number self) (AutoFixState.issue_number self)
        = true ->
        exists qs qs',
          queue_entries fs github_dir qs /\ queue_entries fs' github_dir qs'
          /\ List.filter (fun q => negb (matches "issue_number"
                                           (AutoFixState.issue_number self) q)) qs'
             = List.filter (fun q => negb (matches "issue_number"
                                             (AutoFixState.issue_number self) q)) qs
          /\ length (List.filter (matches "issue_number"
                                    (AutoFixState.issue_number self)) qs')
             = Nat.max 1 (length (List.filter (matches "issue_number"
                                                 (AutoFixState.issue_number self))
                                    qs))).
Proof.
  split.
  - intros now self github_dir fs fs' Hsave Hself.
    apply PRReviewResult_save_entries in Hsave as (rs & Hbefore & _ & Hafter).
    exists rs. eexists. split; [exact Hbefore |]. split; [exact Hafter |].
    rewrite <- review_entry_matches in Hself.
    split; [apply upsert_others | apply upsert_same_count]; exact Hself.
  - intros now self github_dir fs fs' Hsave Hself.
    apply AutoFixState_save_entries in Hsave as (qs & Hbefore & _ & Hafter).
    exists qs. eexists. split; [exact Hbefore |]. split; [exact Hafter |].
    rewrite <- queue_entry_matches in Hself.
    split; [apply upsert_others | apply upsert_same_count]; exact Hself.
Qed.

Lemma PRReviewResult_save_explicit `{Runtime} (now : string)
    (self : PRReviewResult.t) (github_dir : path) (fs fs' : store) :
  PRReviewResult.save now self github_dir fs = Ok fs' ->
  exists idx rs,
    Forall (fun r => has_key "pr_number" r = true) rs
    /\ fs' = <[ github_dir // "pr" // "index.json" :=
               Json (PDict (Dict.set "last_updated" (PStr now)
                              (Dict.set "reviews"
                                 (PList (upsert "pr_number"
                                           (PRReviewResult.pr_number self)
                                           (PRReviewResult.index_entry self) rs))
                                 idx))) ]>
              (<[ github_dir // "pr"
                    // ("review_" ++ format_value (PRReviewResult.pr_number self)
                        ++ ".json")
                  := Json (PDict (PRReviewResult.to_dict self)) ]> fs).
Proof.
  unfold PRReviewResult.save, mkdir, json_dump. intros Hupd.
  destruct (PRReviewResult_update_index_wf _ _ _ _ _ Hupd)
    as (idx & rs & Hidx & Hrs & Hwf).
  rewrite (PRReviewResult_update_index_ok _ _ _ _ idx rs Hidx Hrs Hwf) in Hupd.
  injection Hupd as <-. eauto.
Qed.

Lemma AutoFixState_save_explicit `{Runtime} (now : string)
    (self : AutoFixState.t) (github_dir : path) (fs fs' : store) :
  AutoFixState.save now self github_dir fs = Ok fs' ->
  exists idx qs,
    Forall (fun q => has_key "issue_number" q = true) qs
    /\ fs' = <[ github_dir // "issues" // "index.json" :=
               Json (PDict (Dict.set "last_updated" (PStr now)
                              (Dict.set "auto_fix_queue"
                                 (PList (upsert "issue_number"
                                           (AutoFixState.issue_number self)
                                           (AutoFixState.index_entry self) qs))
                                 idx))) ]>
              (<[ github_dir // "issues"
                    // ("autofix_" ++ format_value (AutoFixState.issue_number self)
                        ++ ".json")
                  := Json (PDict (AutoFixState.to_dict self)) ]> fs).
Proof.
  unfold AutoFixState.save, mkdir, json_dump. intros Hupd.
  destruct (AutoFixState_update_index_wf _ _ _ _ _ Hupd)
    as (idx & qs & Hidx & Hqs & Hwf).
  rewrite (AutoFixState_update_index_ok _ _ _ _ idx qs Hidx Hqs Hwf) in Hupd.
  injection Hupd as <-. eauto.
Qed.

Lemma set_set_entries (key : string) (now now' : string) (rs : list pyval)
    (idx : dict) :
  key <> "last_updated" ->
  Dict.set "last_updated" (PStr now')
    (Dict.set key (PList rs)
       (Dict.set "last_updated" (PStr now) (Dict.set key (PList rs) idx)))
  = Dict.set "last_updated" (PStr now')
      (Dict.set "last_updated" (PStr now) (Dict.set key (PList rs) idx)).
Proof.
  intros Hne. f_equal. apply set_get_id.
  rewrite get_set_ne by exact Hne. apply get_set_eq.
Qed.

(** X8.  Saving the same review twice is idempotent up to the stamp: when
    its [pr_number] equals itself under [==], the second [save] succeeds
    and changes nothing in the store but the [last_updated] value of the
    index. *)
Theorem X8_review_resave `{Runtime} (now1 now2 : string)
    (self : PRReviewResult.t) (github_dir : path) (fs fs1 : store)
    (Hsave : PRReviewResult.save now1 self github_dir fs = Ok fs1)
    (Hself : py_eq (PRReviewResult.pr_number self) (PRReviewResult.pr_number self)
             = true) :
  exists idx,
    fs1 !! (github_dir // "pr" // "index.json") = Some (Json (PDict idx))
    /\ PRReviewResult.save now2 self github_dir fs1
       = Ok (<[ github_dir // "pr" // "index.json" :=
                Json (PDict (Dict.set "last_updated" (PStr now2) idx)) ]> fs1).
Proof.
  apply PRReviewResult_save_explicit in Hsave as (idx & rs & Hwf & ->).
  rewrite <- review_entry_matches in Hself.
  eexists. split; [apply lookup_insert_eq |].
  unfold PRReviewResult.save, mkdir, json_dump.
  rewrite (insert_id (<[_ := _]> (<[_ := _]> fs))).
  2:{ rewrite lookup_insert_ne
        by (intros Heq; symmetry in Heq; exact (review_file_not_index _ _ Heq)).
      apply lookup_insert_eq. }
  erewrite PRReviewResult_update_index_ok.
  - rewrite (upsert_idempotent _ _ _ Hself).
    rewrite set_set_entries by discriminate. reflexivity.
  - unfold index_before. rewrite lookup_insert_eq. reflexivity.
  - apply entries_after. discriminate.
  - apply upsert_has_key; assumption.
Qed.

Lemma X8_witness :
  let review :=
    PRReviewResult.mk (PInt 7) (PStr "o/r") (PBool true) [] (PStr "")
      (PStr "approve") PNone (PStr "2024-01-01T00:00:00") PNone in
  exists fs1 idx,
    @PRReviewResult.save decimal_format "2024-01-01T00:00:01" review ["gh"] ∅
    = Ok fs1
    /\ fs1 !! (["gh"] // "pr" // "index.json") = Some (Json (PDict idx))
    /\ @PRReviewResult.save decimal_format "2024-01-05T00:00:00" review ["gh"] fs1
       = Ok (<[ ["gh"] // "pr" // "index.json" :=
                Json (PDict (Dict.set "last_updated"
                               (PStr "2024-01-05T00:00:00") idx)) ]> fs1).
Proof.
  intros review.
  destruct (@PRReviewResult_save_ok decimal_format "2024-01-01T00:00:01" review
              ["gh"] ∅ _ [] ltac:(unfold index_before; rewrite lookup_empty;
                                  reflexivity) eq_refl ltac:(constructor))
    as (fs1 & Hsave & _).
  destruct (@X8_review_resave decimal_format "2024-01-01T00:00:01"
              "2024-01-05T00:00:00" review ["gh"] ∅ fs1 Hsave eq_refl)
    as (idx & Hidx & Hagain).
  exists fs1, idx. repeat split; assumption.
Defined.

(** X9.  The same for an auto-fix state: a second [save] of a state whose
    [issue_number] equals itself under [==] changes only [last_updated]. *)
Theorem X9_autofix_resave `{Runtime} (now1 now2 : string)
    (self : AutoFixState.t) (github_dir : path) (fs fs1 : store)
    (Hsave : AutoFixState.save now1 self github_dir fs = Ok fs1)
    (Hself : py_eq (AutoFixState.issue_number self)
               (AutoFixState.issue_number self) = true) :
  exists idx,
    fs1 !! (github_dir // "issues" // "index.json") = Some (Json (PDict idx))
    /\ AutoFixState.save now2 self github_dir fs1
       = Ok (<[ github_dir // "issues" // "index.json" :=
                Json (PDict (Dict.set "last_updated" (PStr now2) idx)) ]> fs1).
Proof.
  apply AutoFixState_save_explicit in Hsave as (idx & qs & Hwf & ->).
  rewrite <- queue_entry_matches in Hself.
  eexists. split; [apply lookup_insert_eq |].
  unfold AutoFixState.save, mkdir, json_dump.
  rewrite (insert_id (<[_ := _]> (<[_ := _]> fs))).
  2:{ rewrite lookup_insert_ne
        by (intros Heq; symmetry in Heq; exact (autofix_file_not_index _ _ Heq)).
      apply lookup_insert_eq. }
  erewrite AutoFixState_update_index_ok.
  - rewrite (upsert_idempotent _ _ _ Hself).
    rewrite set_set_entries by discriminate. reflexivity.
  - unfold index_before. rewrite lookup_insert_eq. reflexivity.
  - apply entries_after. discriminate.
  - apply upsert_has_key; assumption.
Qed.

Lemma X9_witness :
  let s := AutoFixState.mk (PInt 42) (PStr "https://x/42") (PStr "o/r")
             AutoFixStatus.BUILDING PNone PNone PNone PNone (PList []) PNone
             (PStr "2024-01-01T00:00:00") (PStr "2024-01-01T00:05:00") in
  exists fs1 idx,
    @AutoFixState.save decimal_format "2024-01-01T00:05:01" s ["gh"] ∅ = Ok fs1
    /\ fs1 !! (["gh"] // "issues" // "index.json") = Some (Json (PDict idx))
    /\ @AutoFixState.save decimal_format "2024-01-09T00:00:00" s ["gh"] fs1
       = Ok (<[ ["gh"] // "issues" // "index.json" :=
                Json (PDict (Dict.set "last_updated"
                               (PStr "2024-01-09T00:00:00") idx)) ]> fs1).
Proof.
  intros s.
  destruct (@AutoFixState_save_ok decimal_format "2024-01-01T00:05:01" s
              ["gh"] ∅ _ [] ltac:(unfold index_before; rewrite lookup_empty;
                                  reflexivity) eq_refl ltac:(constructor))
    as (fs1 & Hsave & _).
  destruct (@X9_autofix_resave decimal_format "2024-01-01T00:05:01"
              "2024-01-09T00:00:00" s ["gh"] ∅ fs1 Hsave eq_refl)
    as (idx & Hidx & Hagain).
  exists fs1, idx. repeat split; assumption.
Defined.

(** ** Decoding, then encoding *)

Lemma enum_call_ok_inv {E} (cls : string) (value : E -> string)
    (members : list E) (v : pyval) (m : E) :
  enum_call cls value members v = Ok m -> v = PStr (value m).
Proof.
  unfold enum_call. destruct v as [| | | |s| |]; try discriminate.
  destruct (find _ members) as [m'|] eqn:Hfind; [| discriminate].
  intros [= <-]. apply find_some in Hfind as [_ Heq].
  apply String.eqb_eq in Heq. rewrite Heq. reflexivity.
Qed.

(** Runs a decoder on [PDict d] up to its result: every required key is
    found and every enum value is a member's. *)
Ltac decode_ok :=
  repeat match goal with
  | |- context [match Dict.get ?k ?d with _ => _ end] =>
      destruct (Dict.get k d) eqn:?; cbn [mbind result_bind];
      try discriminate
  | |- context [?c ?v ≫= _] =>
      let H := fresh "Hcall" in
      destruct (c v) eqn:H; cbn [mbind result_bind]; try discriminate;
      apply enum_call_ok_inv in H; subst
  end.

(** A key the mapping holds, among the keys of the encoding. *)
Ltac present_key Hin Hk :=
  cbn in Hin;
  repeat (destruct Hin as [<- | Hin];
          [cbn; rewrite ?Hk; cbn; congruence |]);
  destruct Hin.

(** A key the mapping lacks: required keys are excluded, optional ones
    take their default, any other key is not encoded. *)
Ltac absent_key k Hk :=
  cbn -[String.eqb];
  repeat match goal with
  | |- context [String.eqb k ?s] =>
      destruct (String.eqb_spec k s);
      [subst k; try congruence; rewrite ?Hk; reflexivity |]
  end;
  reflexivity.


(** X10.  Re-encoding a decoded finding gives the mapping back on every
    key of the encoding that the mapping holds, enum strings included;
    the keys the mapping lacks are the three optional ones at their
    defaults ([None], [None], [False]); keys that are not fields are
    dropped. *)
Theorem X10_finding_decode_encode (d : dict) (x : PRReviewFinding.t)
    (Hdec : PRReviewFinding.from_dict (PDict d) = Ok x) :
  (forall k v, In k (Dict.keys (PRReviewFinding.to_dict x)) ->
               Dict.get k d = Some v ->
               Dict.get k (PRReviewFinding.to_dict x) = Some v)
  /\ (forall k, Dict.get k d = None ->
                Dict.get k (PRReviewFinding.to_dict x)
                = Dict.get k PRReviewFinding_defaults)
  /\ Dict.keys (PRReviewFinding.to_dict x)
     = [ "id"; "severity"; "category"; "title"; "description"; "file"; "line";
         "end_line"; "suggested_fix"; "fixable" ].
Proof.
  split; [| split; [| reflexivity]].
  - intros k v Hin Hk. revert Hdec.
    unfold PRReviewFinding.from_dict, py_getitem, py_get.
    cbn [mbind result_bind]. decode_ok. intros [= <-].
    present_key Hin Hk.
  - intros k Hk. revert Hdec.
    unfold PRReviewFinding.from_dict, py_getitem, py_get.
    cbn [mbind result_bind]. decode_ok. intros [= <-].
    absent_key k Hk.
Qed.

Lemma X10_witness :
  let d := [ ("id", PStr "f1"); ("severity", PStr "high");
             ("category", PStr "quality"); ("title", PStr "t");
             ("description", PStr "d"); ("file", PStr "a.py");
             ("line", PInt 10); ("blame", PStr "someone") ] in
  let x := PRReviewFinding.mk (PStr "f1") ReviewSeverity.HIGH
             ReviewCategory.QUALITY (PStr "t") (PStr "d") (PStr "a.py")
             (PInt 10) PNone PNone (PBool false) in
  PRReviewFinding.from_dict (PDict d) = Ok x
  /\ Dict.get "severity" (PRReviewFinding.to_dict x) = Some (PStr "high")
  /\ Dict.get "fixable" (PRReviewFinding.to_dict x) = Some (PBool false)
  /\ ~ In "blame" (Dict.keys (PRReviewFinding.to_dict x)).
Proof.
  intros d x.
  assert (H : PRReviewFinding.from_dict (PDict d) = Ok x) by reflexivity.
  destruct (X10_finding_decode_encode d x H) as (Hkeep & Hdflt & Hkeys).
  split; [exact H |].
  split; [exact (Hkeep "severity" (PStr "high") ltac:(cbn; tauto) eq_refl) |].
  split; [exact (Hdflt "fixable" eq_refl) |].
  rewrite Hkeys. cbn. intros Hin.
  repeat (destruct Hin as [Hin | Hin]; [discriminate Hin |]). exact Hin.
Defined.

(** X11.  The same for a triage result: the ten optional keys default to
    empty lists, [False], [None], ["medium"] and, for [triaged_at], the
    clock reading of the decoding. *)
Theorem X11_triage_decode_encode (now : string) (d : dict) (x : TriageResult.t)
    (Hdec : TriageResult.from_dict now (PDict d) = Ok x) :
  (forall k v, In k (Dict.keys (TriageResult.to_dict x)) ->
               Dict.get k d = Some v ->
               Dict.get k (TriageResult.to_dict x) = Some v)
  /\ (forall k, Dict.get k d = None ->
                Dict.get k (TriageResult.to_dict x)
                = Dict.get k (TriageResult_defaults now)).
Proof.
  split.
  - intros k v Hin Hk. revert Hdec.
    unfold TriageResult.from_dict, py_getitem, py_get.
    cbn [mbind result_bind]. decode_ok. intros [= <-].
    present_key Hin Hk.
  - intros k Hk. revert Hdec.
    unfold TriageResult.from_dict, py_getitem, py_get.
    cbn [mbind result_bind]. decode_ok. intros [= <-].
    absent_key k Hk.
Qed.

Lemma X11_witness :
  let d := [ ("issue_number", PInt 7); ("repo", PStr "o/r");
             ("category", PStr "bug"); ("confidence", PInt 1);
             ("priority", PStr "high") ] in
  let x := TriageResult.mk (PInt 7) (PStr "o/r") TriageCategory.BUG (PInt 1)
             (PList []) (PList []) (PBool false) PNone (PBool false)
             (PBool false) (PList []) (PStr "high") PNone
             (PStr "2024-01-01T00:00:00") in
  TriageResult.from_dict "2024-01-01T00:00:00" (PDict d) = Ok x
  /\ Dict.get "priority" (TriageResult.to_dict x) = Some (PStr "high")
  /\ Dict.get "triaged_at" (TriageResult.to_dict x)
     = Some (PStr "2024-01-01T00:00:00").
Proof.
  intros d x.
  assert (H : TriageResult.from_dict "2024-01-01T00:00:00" (PDict d) = Ok x)
    by reflexivity.
  destruct (X11_triage_decode_encode "2024-01-01T00:00:00" d x H)
    as (Hkeep & Hdflt).
  split; [exact H |].
  split; [exact (Hkeep "priority" (PStr "high") ltac:(cbn; tauto) eq_refl) |].
  exact (Hdflt "triaged_at" eq_refl).
Defined.

(** X12.  The same for an auto-fix state: a mapping without ["status"]
    decodes as [pending], and [created_at] and [updated_at] default to
    two separate clock readings. *)
Theorem X12_autofix_decode_encode (now_c now_u : string) (d : dict)
    (x : AutoFixState.t)
    (Hdec : AutoFixState.from_dict now_c now_u (PDict d) = Ok x) :
  (forall k v, In k (Dict.keys (AutoFixState.to_dict x)) ->
               Dict.get k d = Some v ->
               Dict.get k (AutoFixState.to_dict x) = Some v)
  /\ (forall k, Dict.get k d = None ->
                Dict.get k (AutoFixState.to_dict x)
                = Dict.get k (AutoFixState_defaults now_c now_u)).
Proof.
  assert (Hx : exists n u r m,
    Dict.get "issue_number" d = Some n /\ Dict.get "issue_url" d = Some u
    /\ Dict.get "repo" d = Some r
    /\ default (PStr "pending") (Dict.get "status" d)
       = PStr (AutoFixStatus.value m)
    /\ x = AutoFixState.mk n u r m
             (default PNone (Dict.get "spec_id" d))
             (default PNone (Dict.get "spec_dir" d))
             (default PNone (Dict.get "pr_number" d))
             (default PNone (Dict.get "pr_url" d))
             (default (PList []) (Dict.get "bot_comments" d))
             (default PNone (Dict.get "error" d))
             (default (PStr now_c) (Dict.get "created_at" d))
             (default (PStr now_u) (Dict.get "updated_at" d))).
  { revert Hdec. unfold AutoFixState.from_dict, py_getitem, py_get.
    cbn [mbind result_bind].
    destruct (Dict.get "issue_number" d) as [n|]; [| discriminate].
    destruct (Dict.get "issue_url" d) as [u|]; [| discriminate].
    destruct (Dict.get "repo" d) as [r|]; [| discriminate].
    cbn [mbind result_bind].
    destruct (AutoFixStatus.call _) as [m|] eqn:Hcall; [| discriminate].
    apply enum_call_ok_inv in Hcall. cbn [mbind result_bind].
    intros [= <-]. exists n, u, r, m. repeat split. exact Hcall. }
  destruct Hx as (n & u & r & m & Hn & Hu & Hr & Hm & ->).
  split.
  - intros k v Hin Hk. cbn in Hin.
    repeat (destruct Hin as [<- | Hin];
            [cbn; rewrite <- ?Hm; rewrite ?Hk; cbn; congruence |]).
    destruct Hin.
  - intros k Hk. cbn -[String.eqb].
    repeat match goal with
    | |- context [String.eqb k ?s] =>
        destruct (String.eqb_spec k s);
        [subst k; try congruence; rewrite <- ?Hm; rewrite ?Hk; reflexivity |]
    end.
    reflexivity.
Qed.

Lemma X12_witness :
  let d := [ ("issue_number", PInt 42); ("issue_url", PStr "https://x/42");
             ("repo", PStr "o/r"); ("pr_number", PInt 77) ] in
  let x := AutoFixState.mk (PInt 42) (PStr "https://x/42") (PStr "o/r")
             AutoFixStatus.PENDING PNone PNone (PInt 77) PNone (PList []) PNone
             (PStr "2024-01-01T00:00:00") (PStr "2024-01-01T00:00:01") in
  AutoFixState.from_dict "2024-01-01T00:00:00" "2024-01-01T00:00:01" (PDict d)
  = Ok x
  /\ Dict.get "pr_number" (AutoFixState.to_dict x) = Some (PInt 77)
  /\ Dict.get "status" (AutoFixState.to_dict x) = Some (PStr "pending")
  /\ Dict.get "updated_at" (AutoFixState.to_dict x)
     = Some (PStr "2024-01-01T00:00:01").
Proof.
  intros d x.
  assert (H : AutoFixState.from_dict "2024-01-01T00:00:00"
                "2024-01-01T00:00:01" (PDict d) = Ok x) by reflexivity.
  destruct (X12_autofix_decode_encode "2024-01-01T00:00:00"
              "2024-01-01T00:00:01" d x H) as (Hkeep & Hdflt).
  split; [exact H |].
  split; [exact (Hkeep "pr_number" (PInt 77) ltac:(cbn; tauto) eq_refl) |].
  split; [exact (Hdflt "status" eq_refl) | exact (Hdflt "updated_at" eq_refl)].
Defined.

Lemma PRReviewResult_decoded (now : string) (d : dict) (x : PRReviewResult.t) :
  PRReviewResult.from_dict now (PDict d) = Ok x ->
  exists n r s items,
    Dict.get "pr_number" d = Some n /\ Dict.get "repo" d = Some r
    /\ Dict.get "success" d = Some s
    /\ py_iter (default (PList []) (Dict.get "findings" d)) = Ok items
    /\ traverse PRReviewFinding.from_dict items = Ok (PRReviewResult.findings x)
    /\ x = PRReviewResult.mk n r s (PRReviewResult.findings x)
             (default (PStr "") (Dict.get "summary" d))
             (default (PStr "comment") (Dict.get "overall_status" d))
             (default PNone (Dict.get "review_id" d))
             (default (PStr now) (Dict.get "reviewed_at" d))
             (default PNone (Dict.get "error" d)).
Proof.
  unfold PRReviewResult.from_dict, py_getitem, py_get.
  cbn [mbind result_bind].
  destruct (Dict.get "pr_number" d) as [n|]; [| discriminate].
  destruct (Dict.get "repo" d) as [r|]; [| discriminate].
  destruct (Dict.get "success" d) as [s|]; [| discriminate].
  cbn [mbind result_bind].
  destruct (py_iter _) as [items|] eqn:Hiter; [| discriminate].
  cbn [mbind result_bind].
  destruct (traverse _ items) as [fs|] eqn:Htr; [| discriminate].
  cbn [mbind result_bind]. intros [= <-].
  exists n, r, s, items. repeat split. exact Htr.
Qed.

(** X13.  Re-encoding a decoded review gives the mapping back on every
    key it holds other than ["findings"], and the defaults on the keys
    it lacks: no findings, an empty summary, the status ["comment"],
    and the clock reading of the decoding for [reviewed_at].  The
    findings are the decoded elements of the ["findings"] value, in
    order. *)
Theorem X13_review_decode_encode (now : string) (d : dict)
    (x : PRReviewResult.t)
    (Hdec : PRReviewResult.from_dict now (PDict d) = Ok x) :
  (forall k v, In k (Dict.keys (PRReviewResult.to_dict x)) -> k <> "findings" ->
               Dict.get k d = Some v ->
               Dict.get k (PRReviewResult.to_dict x) = Some v)
  /\ (forall k, Dict.get k d = None ->
                Dict.get k (PRReviewResult.to_dict x)
                = Dict.get k (PRReviewResult_defaults now))
  /\ (exists items,
        py_iter (default (PList []) (Dict.get "findings" d)) = Ok items
        /\ traverse PRReviewFinding.from_dict items
           = Ok (PRReviewResult.findings x)).
Proof.
  destruct (PRReviewResult_decoded now d x Hdec)
    as (n & r & s & items & Hn & Hr & Hs & Hiter & Htr & Hx).
  split; [| split; [| eauto]].
  - intros k v Hin Hne Hk. rewrite Hx. cbn in Hin.
    repeat (destruct Hin as [<- | Hin];
            [try congruence; cbn; rewrite ?Hk; cbn; congruence |]).
    destruct Hin.
  - intros k Hk.
    destruct (String.eqb_spec k "findings") as [-> | Hne].
    + rewrite Hk in Hiter. cbn in Hiter. injection Hiter as <-.
      cbn in Htr. injection Htr as Hfs. rewrite Hx, <- Hfs. reflexivity.
    + rewrite Hx. cbn -[String.eqb].
      repeat match goal with
      | |- context [String.eqb k ?s] =>
          destruct (String.eqb_spec k s);
          [subst k; try congruence; rewrite ?Hk; reflexivity |]
      end.
      reflexivity.
Qed.

Lemma X13_witness :
  let d := [ ("pr_number", PInt 7); ("repo", PStr "o/r");
             ("success", PBool false); ("error", PStr "timeout") ] in
  let x := PRReviewResult.mk (PInt 7) (PStr "o/r") (PBool false) []
             (PStr "") (PStr "comment") PNone (PStr "2024-01-01T00:00:00")
             (PStr "timeout") in
  PRReviewResult.from_dict "2024-01-01T00:00:00" (PDict d) = Ok x
  /\ Dict.get "error" (PRReviewResult.to_dict x) = Some (PStr "timeout")
  /\ Dict.get "findings" (PRReviewResult.to_dict x) = Some (PList [])
  /\ Dict.get "reviewed_at" (PRReviewResult.to_dict x)
     = Some (PStr "2024-01-01T00:00:00").
Proof.
  intros d x.
  assert (H : PRReviewResult.from_dict "2024-01-01T00:00:00" (PDict d) = Ok x)
    by reflexivity.
  destruct (X13_review_decode_encode "2024-01-01T00:00:00" d x H)
    as (Hkeep & Hdflt & _).
  split; [exact H |].
  split; [exact (Hkeep "error" (PStr "timeout") ltac:(cbn; tauto)
                   ltac:(discriminate) eq_refl) |].
  split; [exact (Hdflt "findings" eq_refl) | exact (Hdflt "reviewed_at" eq_refl)].
Defined.

Lemma traverse_first_failure {A B} (f : A -> result B) (pre : list A) (bad : A)
    (post : list A) (e : exn) :
  Forall (fun a => is_ok (f a) = true) pre -> f bad = Raise e ->
  traverse f (pre ++ bad :: post) = Raise e.
Proof.
  intros Hpre Hbad. induction Hpre as [|a pre Ha _ IH]; simpl.
  - rewrite Hbad. reflexivity.
  - destruct (f a); [| discriminate Ha]. simpl. rewrite IH. reflexivity.
Qed.

(** X14.  When the three required keys of a review are present, a
    ["findings"] value that cannot be iterated ([null], a number, a
    boolean) makes the decoder raise [TypeError], and the first element
    that the finding decoder rejects makes it raise that element's
    exception. *)
Theorem X14_review_findings_errors (now : string) (d : dict)
    (Hreq : first_fault PRReviewResult_required d = None) :
  (forall v e, Dict.get "findings" d = Some v -> py_iter v = Raise e ->
               PRReviewResult.from_dict now (PDict d) = Raise e)
  /\ (forall v, Dict.get "findings" d = Some v ->
                v = PNone \/ (exists b, v = PBool b) \/ (exists n, v = PInt n)
                \/ (exists f, v = PFloat f) ->
                PRReviewResult.from_dict now (PDict d) = Raise TypeError)
  /\ (forall pre bad post e,
        Dict.get "findings" d = Some (PList (pre ++ bad :: post)) ->
        Forall (fun f => is_ok (PRReviewFinding.from_dict f) = true) pre ->
        PRReviewFinding.from_dict bad = Raise e ->
        PRReviewResult.from_dict now (PDict d) = Raise e).
Proof.
  revert Hreq.
  unfold PRReviewResult.from_dict, PRReviewResult_required, py_getitem, py_get.
  cbn [first_fault mbind result_bind].
  destruct (Dict.get "pr_number" d) as [n|]; [| discriminate].
  destruct (Dict.get "repo" d) as [r|]; [| discriminate].
  destruct (Dict.get "success" d) as [s|]; [| discriminate].
  intros _. cbn [mbind result_bind].
  assert (Hiter : forall v e, Dict.get "findings" d = Some v ->
                    py_iter v = Raise e ->
                    (py_iter (default (PList []) (Dict.get "findings" d))
                     ≫= fun items =>
                          traverse PRReviewFinding.from_dict items
                          ≫= fun a_findings =>
                               Ok (PRReviewResult.mk n r s a_findings
                                     (default (PStr "") (Dict.get "summary" d))
                                     (default (PStr "comment")
                                        (Dict.get "overall_status" d))
                                     (default PNone (Dict.get "review_id" d))
                                     (default (PStr now)
                                        (Dict.get "reviewed_at" d))
                                     (default PNone (Dict.get "error" d))))
                    = Raise e).
  { intros v e Hv He. rewrite Hv. cbn [from_option id]. rewrite He. reflexivity. }
  split; [exact Hiter |]. split.
  - intros v Hv Hcases. apply (Hiter v TypeError Hv).
    destruct Hcases as [-> | [[b ->] | [[z ->] | [f ->]]]]; reflexivity.
  - intros pre bad post e Hv Hpre Hbad. rewrite Hv.
    cbn [from_option id py_iter mbind result_bind].
    rewrite (traverse_first_failure _ pre bad post e Hpre Hbad). reflexivity.
Qed.

Lemma X14_witness :
  let good := PDict [ ("id", PStr "f1"); ("severity", PStr "low");
                      ("category", PStr "docs"); ("title", PStr "t");
                      ("description", PStr "d"); ("file", PStr "a.py");
                      ("line", PInt 1) ] in
  let bad := PDict [ ("id", PStr "f2"); ("severity", PStr "low") ] in
  let d := [ ("pr_number", PInt 7); ("repo", PStr "o/r");
             ("success", PBool true); ("findings", PList [good; bad; good]) ] in
  PRReviewResult.from_dict "2024-01-01T00:00:00" (PDict d)
  = Raise (KeyError "category").
Proof.
  intros good bad d.
  destruct (X14_review_findings_errors "2024-01-01T00:00:00" d eq_refl)
    as (_ & _ & Hfirst).
  apply (Hfirst [good] bad [good] (KeyError "category")).
  - reflexivity.
  - repeat constructor.
  - reflexivity.
Defined.

(** X15.  Calling an enumeration class is the exact inverse of [.value]:
    a value is accepted if and only if it is the string of a member, and
    then that member is returned.  Other strings, and values that are not
    strings, raise [ValueError]. *)
Theorem X15_enum_call_value :
  (forall v m, ReviewSeverity.call v = Ok m <-> v = PStr (ReviewSeverity.value m))
  /\ (forall v m, ReviewCategory.call v = Ok m <-> v = PStr (ReviewCategory.value m))
  /\ (forall v m, TriageCategory.call v = Ok m <-> v = PStr (TriageCategory.value m))
  /\ (forall v m, AutoFixStatus.call v = Ok m <-> v = PStr (AutoFixStatus.value m))
  /\ (forall v, is_ok (ReviewSeverity.call v) = false ->
                ReviewSeverity.call v = Raise (ValueError v "ReviewSeverity"))
  /\ (forall v, is_ok (ReviewCategory.call v) = false ->
                ReviewCategory.call v = Raise (ValueError v "ReviewCategory"))
  /\ (forall v, is_ok (TriageCategory.call v) = false ->
                TriageCategory.call v = Raise (ValueError v "TriageCategory"))
  /\ (forall v, is_ok (AutoFixStatus.call v) = false ->
                AutoFixStatus.call v = Raise (ValueError v "AutoFixStatus")).
Proof.
  repeat match goal with |- _ /\ _ => split end.
  1-4: intros v m; split;
       [apply enum_call_ok_inv | intros ->; destruct m; reflexivity].
  all: intros v Hv;
       match goal with
       | |- ?c v = _ => destruct (c v) as [m|e] eqn:Hc; [discriminate Hv |]
       end;
       apply enum_call_raise in Hc; subst e; reflexivity.
Qed.

(** X16.  No decoder accepts a value that is not a mapping: a list, a
    string, a number, a boolean or [None] raises [TypeError] at the first
    key lookup. *)
Theorem X16_decode_non_mapping (now now' : string) (v : pyval)
    (Hv : forall d, v <> PDict d) :
  PRReviewFinding.from_dict v = Raise TypeError
  /\ PRReviewResult.from_dict now v = Raise TypeError
  /\ TriageResult.from_dict now v = Raise TypeError
  /\ AutoFixState.from_dict now now' v = Raise TypeError.
Proof.
  destruct v as [| | | | | |d]; try (repeat split; reflexivity).
  exfalso. exact (Hv d eq_refl).
Qed.

Lemma X16_witness :
  PRReviewFinding.from_dict (PList []) = Raise TypeError
  /\ PRReviewResult.from_dict "" (PList []) = Raise TypeError
  /\ TriageResult.from_dict "" (PList []) = Raise TypeError
  /\ AutoFixState.from_dict "" "" (PList []) = Raise TypeError.
Proof.
  apply (X16_decode_non_mapping "" "" (PList [])). intros d. discriminate.
Defined.

(** ** A damaged index *)

Section UpsertBad.

Variables (key : string) (ident entry : pyval).

Local Abbreviation same := (fun r : pyval => n ← py_getitem r key; Ok (py_eq n ident)).

Lemma next_where_bad (pre : list pyval) (bad : pyval) (post : list pyval)
    (e : exn) :
  Forall (fun r => has_key key r = true) pre ->
  py_getitem bad key = Raise e ->
  next_where same (pre ++ bad :: post)
  = if existsb (matches key ident) pre
    then Ok (find (matches key ident) pre) else Raise e.
Proof.
  intros Hpre Hbad. induction Hpre as [|r pre Hr _ IH]; cbn [app next_where].
  - rewrite Hbad. reflexivity.
  - rewrite (same_has_key key ident r Hr). cbn [mbind result_bind existsb find].
    destruct (matches key ident r); [reflexivity | exact IH].
Qed.

Lemma traverse_bad (pre : list pyval) (bad : pyval) (post : list pyval)
    (e : exn) :
  Forall (fun r => has_key key r = true) pre ->
  py_getitem bad key = Raise e ->
  traverse (fun r => b ← same r; Ok (if b : bool then entry else r))
    (pre ++ bad :: post)
  = Raise e.
Proof.
  intros Hpre Hbad. apply traverse_first_failure.
  - eapply Forall_impl; [exact Hpre |]. intros r Hr. cbn beta.
    rewrite (same_has_key key ident r Hr). reflexivity.
  - cbn beta. rewrite Hbad. reflexivity.
Qed.

End UpsertBad.

(** X17.  [PRReviewResult.save] raises when the index beside the review
    is damaged: [JSONDecodeError] when the index file is not JSON,
    [AttributeError] when it is a JSON document other than an object, the
    iteration's [TypeError] when ["reviews"] is not iterable, and the
    lookup's exception ([KeyError] for an object without ["pr_number"],
    [TypeError] for an entry that is not an object) at the first entry
    that has no ["pr_number"], whether or not an earlier entry already
    matched. *)
Theorem X17_review_save_damaged_index `{Runtime} (now : string)
    (self : PRReviewResult.t) (github_dir : path) (fs : store) :
  let index_file := github_dir // "pr" // "index.json" in
  let r := PRReviewResult.save now self github_dir fs in
  (forall text, fs !! index_file = Some (NotJson text) ->
                r = Raise JSONDecodeError)
  /\ (forall v, fs !! index_file = Some (Json v) -> (forall d, v <> PDict d) ->
                r = Raise AttributeError)
  /\ (forall idx v e, fs !! index_file = Some (Json (PDict idx)) ->
                      Dict.get "reviews" idx = Some v -> py_iter v = Raise e ->
                      r = Raise e)
  /\ (forall idx pre bad post e,
        fs !! index_file = Some (Json (PDict idx)) ->
        Dict.get "reviews" idx = Some (PList (pre ++ bad :: post)) ->
        Forall (fun r => has_key "pr_number" r = true) pre ->
        py_getitem bad "pr_number" = Raise e ->
        r = Raise e).
Proof.
  intros index_file r. subst r index_file.
  unfold PRReviewResult.save, PRReviewResult._update_index, mkdir, json_dump,
    json_load.
  cbv zeta.
  split; [| split; [| split]].
  - intros text Hp.
    rewrite (exists_Some _ _ (NotJson text))
      by (rewrite lookup_insert_ne by apply review_file_not_index; exact Hp).
    rewrite lookup_insert_ne by apply review_file_not_index. rewrite Hp.
    reflexivity.
  - intros v Hp Hv.
    rewrite (exists_Some _ _ (Json v))
      by (rewrite lookup_insert_ne by apply review_file_not_index; exact Hp).
    rewrite lookup_insert_ne by apply review_file_not_index. rewrite Hp.
    destruct v as [| | | | | |d]; try reflexivity.
    exfalso. exact (Hv d eq_refl).
  - intros idx v e Hp Hv He.
    rewrite (exists_Some _ _ (Json (PDict idx)))
      by (rewrite lookup_insert_ne by apply review_file_not_index; exact Hp).
    rewrite lookup_insert_ne by apply review_file_not_index. rewrite Hp.
    cbn [mbind result_bind py_get]. rewrite Hv. cbn [from_option id].
    rewrite He. reflexivity.
  - intros idx pre bad post e Hp Hv Hpre Hbad.
    rewrite (exists_Some _ _ (Json (PDict idx)))
      by (rewrite lookup_insert_ne by apply review_file_not_index; exact Hp).
    rewrite lookup_insert_ne by apply review_file_not_index. rewrite Hp.
    cbn [mbind result_bind py_get]. rewrite Hv.
    cbn [from_option id py_iter mbind result_bind].
    rewrite (next_where_bad "pr_number" _ pre bad post e Hpre Hbad).
    destruct (existsb _ pre) eqn:Hex; [| reflexivity].
    cbn [mbind result_bind].
    rewrite (found_truthy "pr_number" _ pre Hpre), Hex.
    rewrite (traverse_bad "pr_number" _ _ pre bad post e Hpre Hbad).
    reflexivity.
Qed.

Lemma X17_witness :
  let index :=
    PDict [ ("reviews",
              PList [ PDict [("pr_number", PInt 7); ("repo", PStr "o/r")];
                      PDict [("repo", PStr "o/r")] ]);
            ("last_updated", PNone) ] in
  let review :=
    PRReviewResult.mk (PInt 7) (PStr "o/r") (PBool true) [] (PStr "")
      (PStr "approve") PNone (PStr "2024-01-01T00:00:00") PNone in
  @PRReviewResult.save decimal_format "2024-01-01T00:00:01" review ["gh"]
    (<[ ["gh"; "pr"; "index.json"] := Json index ]> ∅)
  = Raise (KeyError "pr_number").
Proof.
  intros index review.
  destruct (@X17_review_save_damaged_index decimal_format "2024-01-01T00:00:01"
              review ["gh"] (<[ ["gh"; "pr"; "index.json"] := Json index ]> ∅))
    as (_ & _ & _ & Hentry).
  eapply (Hentry _ [PDict [("pr_number", PInt 7); ("repo", PStr "o/r")]]
            (PDict [("repo", PStr "o/r")]) []).
  - apply (lookup_insert_eq (M := gmap path)).
  - reflexivity.
  - repeat constructor.
  - reflexivity.
Defined.

(** X18.  The same for [AutoFixState.save] and [issues/index.json]. *)
Theorem X18_autofix_save_damaged_index `{Runtime} (now : string)
    (self : AutoFixState.t) (github_dir : path) (fs : store) :
  let index_file := github_dir // "issues" // "index.json" in
  let r := AutoFixState.save now self github_dir fs in
  (forall text, fs !! index_file = Some (NotJson text) ->
                r = Raise JSONDecodeError)
  /\ (forall v, fs !! index_file = Some (Json v) -> (forall d, v <> PDict d) ->
                r = Raise AttributeError)
  /\ (forall idx v e, fs !! index_file = Some (Json (PDict idx)) ->
                      Dict.get "auto_fix_queue" idx = Some v ->
                      py_iter v = Raise e ->
                      r = Raise e)
  /\ (forall idx pre bad post e,
        fs !! index_file = Some (Json (PDict idx)) ->
        Dict.get "auto_fix_queue" idx = Some (PList (pre ++ bad :: post)) ->
        Forall (fun q => has_key "issue_number" q = true) pre ->
        py_getitem bad "issue_number" = Raise e ->
        r = Raise e).
Proof.
  intros index_file r. subst r index_file.
  unfold AutoFixState.save, AutoFixState._update_index, mkdir, json_dump,
    json_load.
  cbv zeta.
  split; [| split; [| split]].
  - intros text Hp.
    rewrite (exists_Some _ _ (NotJson text))
      by (rewrite lookup_insert_ne by apply autofix_file_not_index; exact Hp).
    rewrite lookup_insert_ne by apply autofix_file_not_index. rewrite Hp.
    reflexivity.
  - intros v Hp Hv.
    rewrite (exists_Some _ _ (Json v))
      by (rewrite lookup_insert_ne by apply autofix_file_not_index; exact Hp).
    rewrite lookup_insert_ne by apply autofix_file_not_index. rewrite Hp.
    destruct v as [| | | | | |d]; try reflexivity.
    exfalso. exact (Hv d eq_refl).
  - intros idx v e Hp Hv He.
    rewrite (exists_Some _ _ (Json (PDict idx)))
      by (rewrite lookup_insert_ne by apply autofix_file_not_index; exact Hp).
    rewrite lookup_insert_ne by apply autofix_file_not_index. rewrite Hp.
    cbn [mbind result_bind py_get]. rewrite Hv. cbn [from_option id].
    rewrite He. reflexivity.
  - intros idx pre bad post e Hp Hv Hpre Hbad.
    rewrite (exists_Some _ _ (Json (PDict idx)))
      by (rewrite lookup_insert_ne by apply autofix_file_not_index; exact Hp).
    rewrite lookup_insert_ne by apply autofix_file_not_index. rewrite Hp.
    cbn [mbind result_bind py_get]. rewrite Hv.
    cbn [from_option id py_iter mbind result_bind].
    rewrite (next_where_bad "issue_number" _ pre bad post e Hpre Hbad).
    destruct (existsb _ pre) eqn:Hex; [| reflexivity].
    cbn [mbind result_bind].
    rewrite (found_truthy "issue_number" _ pre Hpre), Hex.
    rewrite (traverse_bad "issue_number" _ _ pre bad post e Hpre Hbad).
    reflexivity.
Qed.

Lemma X18_witness :
  let s := AutoFixState.mk (PInt 42) (PStr "https://x/42") (PStr "o/r")
             AutoFixStatus.PENDING PNone PNone PNone PNone (PList []) PNone
             (PStr "2024-01-01T00:00:00") (PStr "2024-01-01T00:00:00") in
  @AutoFixState.save decimal_format "2024-01-01T00:00:01" s ["gh"]
    (<[ ["gh"; "issues"; "index.json"] :=
          Json (PDict [("triaged", PList []); ("auto_fix_queue", PNone)]) ]> ∅)
  = Raise TypeError.
Proof.
  intros s.
  destruct (@X18_autofix_save_damaged_index decimal_format
              "2024-01-01T00:00:01" s ["gh"]
              (<[ ["gh"; "issues"; "index.json"] :=
                    Json (PDict [("triaged", PList []);
                                 ("auto_fix_queue", PNone)]) ]> ∅))
    as (_ & _ & Hiter & _).
  eapply (Hiter _ PNone).
  - apply (lookup_insert_eq (M := gmap path)).
  - reflexivity.
  - reflexivity.
Defined.

(** ** Records beside one another *)

Lemma string_length_append (a s : string) :
  String.length (a ++ s) = (String.length a + String.length s)%nat.
Proof. induction a as [|c a IH]; simpl; [reflexivity | rewrite IH; reflexivity]. Qed.

Lemma string_append_inv_tail (a b s : string) : a ++ s = b ++ s -> a = b.
Proof.
  revert b. induction a as [|c a IH]; intros [|c' b] Heq.
  - reflexivity.
  - apply (f_equal String.length) in Heq.
    rewrite !string_length_append in Heq. simpl in Heq. lia.
  - apply (f_equal String.length) in Heq.
    rewrite !string_length_append in Heq. simpl in Heq. lia.
  - change (String c (a ++ s) = String c' (b ++ s)) in Heq.
    injection Heq as -> Heq. rewrite (IH b Heq). reflexivity.
Qed.

Lemma file_name_inj (p : path) (prefix a b : string) :
  a <> b ->
  p // (prefix ++ a ++ ".json") <> p // (prefix ++ b ++ ".json").
Proof.
  intros Hne Heq. unfold joinpath in Heq. apply app_inv_head in Heq.
  injection Heq as Heq. apply Hne.
  induction prefix as [|c prefix IH].
  - exact (string_append_inv_tail a b ".json" Heq).
  - change (String c (prefix ++ a ++ ".json") = String c (prefix ++ b ++ ".json"))
      in Heq.
    injection Heq as Heq. exact (IH Heq).
Qed.

Lemma load_same_file {A} (decode : pyval -> result A) (p : path)
    (fs fs' : store) :
  fs' !! p = fs !! p ->
  (if negb (exists_ p fs') then Ok None
   else data ← json_load p fs'; r ← decode data; Ok (Some r))
  = (if negb (exists_ p fs) then Ok None
     else data ← json_load p fs; r ← decode data; Ok (Some r)).
Proof. intros Hp. unfold exists_, json_load. rewrite Hp. reflexivity. Qed.

(** X19.  Saving a record leaves what [load] returns for every other
    record as it was: for another identifier of the same type, provided
    the two identifiers are formatted differently in the file name, and
    for any identifier of another type under [issues/], since triage
    and auto-fix files carry different prefixes. *)
Theorem X19_save_leaves_other_loads `{Runtime} :
  (forall now now' self github_dir fs fs' n,
     PRReviewResult.save now self github_dir fs = Ok fs' ->
     format_value n <> format_value (PRReviewResult.pr_number self) ->
     PRReviewResult.load now' github_dir n fs'
     = PRReviewResult.load now' github_dir n fs)
  /\ (forall now' self github_dir fs n,
        format_value n <> format_value (TriageResult.issue_number self) ->
        TriageResult.load now' github_dir n (TriageResult.save self github_dir fs)
        = TriageResult.load now' github_dir n fs)
  /\ (forall now now_c now_u self github_dir fs fs' n,
        AutoFixState.save now self github_dir fs = Ok fs' ->
        format_value n <> format_value (AutoFixState.issue_number self) ->
        AutoFixState.load now_c now_u github_dir n fs'
        = AutoFixState.load now_c now_u github_dir n fs)
  /\ (forall now_c now_u self github_dir fs n,
        AutoFixState.load now_c now_u github_dir n
          (TriageResult.save self github_dir fs)
        = AutoFixState.load now_c now_u github_dir n fs)
  /\ (forall now now' self github_dir fs fs' n,
        AutoFixState.save now self github_dir fs = Ok fs' ->
        TriageResult.load now' github_dir n fs'
        = TriageResult.load now' github_dir n fs).
Proof.
  repeat match goal with |- _ /\ _ => split end.
  - intros now now' self github_dir fs fs' n Hsave Hn.
    apply PRReviewResult_save_inv in Hsave as [index ->].
    apply load_same_file.
    rewrite lookup_insert_ne by (apply not_eq_sym, review_file_not_index).
    apply lookup_insert_ne, not_eq_sym, file_name_inj. exact Hn.
  - intros now' self github_dir fs n Hn.
    unfold TriageResult.save, mkdir, json_dump. apply load_same_file.
    apply lookup_insert_ne, not_eq_sym, file_name_inj. exact Hn.
  - intros now now_c now_u self github_dir fs fs' n Hsave Hn.
    apply AutoFixState_save_inv in Hsave as [index ->].
    apply load_same_file.
    rewrite lookup_insert_ne by (apply not_eq_sym, autofix_file_not_index).
    apply lookup_insert_ne, not_eq_sym, file_name_inj. exact Hn.
  - intros now_c now_u self github_dir fs n.
    unfold TriageResult.save, mkdir, json_dump. apply load_same_file.
    apply lookup_insert_ne. unfold joinpath. intros Heq.
    apply app_inv_head in Heq. discriminate Heq.
  - intros now now' self github_dir fs fs' n Hsave.
    apply AutoFixState_save_inv in Hsave as [index ->].
    apply load_same_file.
    rewrite !lookup_insert_ne; [reflexivity | |];
      unfold joinpath; intros Heq; apply app_inv_head in Heq;
      discriminate Heq.
Qed.

Lemma X19_witness :
  let triage n :=
    TriageResult.mk (PInt n) (PStr "o/r") TriageCategory.BUG (PInt 1)
      (PList []) (PList []) (PBool false) PNone (PBool false) (PBool false)
      (PList []) (PStr "medium") PNone (PStr "2024-01-01T00:00:00") in
  @TriageResult.load decimal_format "" ["gh"] (PInt 1)
    (@TriageResult.save decimal_format (triage 2) ["gh"]
       (@TriageResult.save decimal_format (triage 1) ["gh"] ∅))
  = Ok (Some (triage 1)).
Proof.
  intros triage.
  destruct (@X19_save_leaves_other_loads decimal_format) as (_ & Htriage & _).
  rewrite (Htriage "" (triage 2) ["gh"] _ (PInt 1)) by discriminate.
  unfold TriageResult.load, TriageResult.save, mkdir, json_dump.
  apply (load_of_file _ _ _ (PDict (TriageResult.to_dict (triage 1)))).
  - apply (lookup_insert_eq (M := gmap path)).
  - reflexivity.
Defined.

Lemma review_entries_fun (fs : store) (github_dir : path) (rs rs' : list pyval) :
  review_entries fs github_dir rs -> review_entries fs github_dir rs' -> rs = rs'.
Proof.
  intros (idx & Hidx & Hrs) (idx' & Hidx' & Hrs').
  unfold index_before in Hidx, Hidx'. unfold entries_of in Hrs, Hrs'.
  destruct (fs !! (github_dir // "pr" // "index.json")) as [c|]; subst;
    congruence.
Qed.

Lemma queue_entries_fun (fs : store) (github_dir : path) (qs qs' : list pyval) :
  queue_entries fs github_dir qs -> queue_entries fs github_dir qs' -> qs = qs'.
Proof.
  intros (idx & Hidx & Hqs) (idx' & Hidx' & Hqs').
  unfold index_before in Hidx, Hidx'. unfold entries_of in Hqs, Hqs'.
  destruct (fs !! (github_dir // "issues" // "index.json")) as [c|]; subst;
    congruence.
Qed.

Lemma upsert_keeps (key : string) (ident entry r : pyval) (rs : list pyval) :
  In r rs -> matches key ident r = false -> In r (upsert key ident entry rs).
Proof.
  intros Hin Hr. unfold upsert. destruct (existsb (matches key ident) rs).
  - apply in_map_iff. exists r. rewrite Hr. split; [reflexivity | exact Hin].
  - apply in_or_app. left. exact Hin.
Qed.

(** X20.  Two reviews with different numbers, saved one after the other,
    are both listed in the index after the second save. *)
Theorem X20_two_reviews_listed `{Runtime} (now1 now2 : string)
    (r1 r2 : PRReviewResult.t) (github_dir : path) (fs fs1 fs2 : store)
    (Hsave1 : PRReviewResult.save now1 r1 github_dir fs = Ok fs1)
    (Hsave2 : PRReviewResult.save now2 r2 github_dir fs1 = Ok fs2)
    (Hdiff : py_eq (PRReviewResult.pr_number r1) (PRReviewResult.pr_number r2)
             = false) :
  exists rs,
    review_entries fs2 github_dir rs
    /\ In (PRReviewResult.index_entry r1) rs
    /\ In (PRReviewResult.index_entry r2) rs.
Proof.
  apply PRReviewResult_save_entries in Hsave1 as (rs0 & _ & _ & Hfs1).
  apply PRReviewResult_save_entries in Hsave2 as (rs1 & Hfs1' & _ & Hfs2).
  rewrite <- (review_entries_fun _ _ _ _ Hfs1 Hfs1') in Hfs2.
  eexists. split; [exact Hfs2 |]. split; [| apply upsert_In].
  apply upsert_keeps; [apply upsert_In | exact Hdiff].
Qed.

Lemma X20_witness :
  let review n :=
    PRReviewResult.mk (PInt n) (PStr "o/r") (PBool true) [] (PStr "")
      (PStr "comment") PNone (PStr "2024-01-01T00:00:00") PNone in
  exists fs2 rs,
    (fs1 ← @PRReviewResult.save decimal_format "a" (review 1) ["gh"] ∅;
     @PRReviewResult.save decimal_format "b" (review 2) ["gh"] fs1) = Ok fs2
    /\ review_entries fs2 ["gh"] rs
    /\ In (PRReviewResult.index_entry (review 1)) rs
    /\ In (PRReviewResult.index_entry (review 2)) rs.
Proof.
  intros review.
  destruct (@PRReviewResult_save_ok decimal_format "a" (review 1) ["gh"] ∅ _ []
              ltac:(unfold index_before; rewrite lookup_empty; reflexivity)
              eq_refl ltac:(constructor)) as (fs1 & Hsave1 & Hidx1).
  destruct (@PRReviewResult_save_ok decimal_format "b" (review 2) ["gh"] fs1 _
              [PRReviewResult.index_entry (review 1)]
              ltac:(unfold index_before; rewrite Hidx1; reflexivity)
              eq_refl ltac:(repeat constructor)) as (fs2 & Hsave2 & _).
  destruct (@X20_two_reviews_listed decimal_format "a" "b" (review 1) (review 2)
              ["gh"] ∅ fs1 fs2 Hsave1 Hsave2 eq_refl) as (rs & Hrs & Hin1 & Hin2).
  exists fs2, rs. rewrite Hsave1. cbn [mbind result_bind].
  repeat split; assumption.
Defined.

(** X21.  Two auto-fix states for different issues, saved one after the
    other, are both in the queue of the index after the second save. *)
Theorem X21_two_states_queued `{Runtime} (now1 now2 : string)
    (s1 s2 : AutoFixState.t) (github_dir : path) (fs fs1 fs2 : store)
    (Hsave1 : AutoFixState.save now1 s1 github_dir fs = Ok fs1)
    (Hsave2 : AutoFixState.save now2 s2 github_dir fs1 = Ok fs2)
    (Hdiff : py_eq (AutoFixState.issue_number s1) (AutoFixState.issue_number s2)
             = false) :
  exists qs,
    queue_entries fs2 github_dir qs
    /\ In (AutoFixState.index_entry s1) qs
    /\ In (AutoFixState.index_entry s2) qs.
Proof.
  apply AutoFixState_save_entries in Hsave1 as (qs0 & _ & _ & Hfs1).
  apply AutoFixState_save_entries in Hsave2 as (qs1 & Hfs1' & _ & Hfs2).
  rewrite <- (queue_entries_fun _ _ _ _ Hfs1 Hfs1') in Hfs2.
  eexists. split; [exact Hfs2 |]. split; [| apply upsert_In].
  apply upsert_keeps; [apply upsert_In | exact Hdiff].
Qed.

Lemma X21_witness :
  let state n :=
    AutoFixState.mk (PInt n) (PStr "https://x") (PStr "o/r")
      AutoFixStatus.PENDING PNone PNone PNone PNone (PList []) PNone
      (PStr "2024-01-01T00:00:00") (PStr "2024-01-01T00:00:00") in
  exists fs2 qs,
    (fs1 ← @AutoFixState.save decimal_format "a" (state 1) ["gh"] ∅;
     @AutoFixState.save decimal_format "b" (state 2) ["gh"] fs1) = Ok fs2
    /\ queue_entries fs2 ["gh"] qs
    /\ In (AutoFixState.index_entry (state 1)) qs
    /\ In (AutoFixState.index_entry (state 2)) qs.
Proof.
  intros state.
  destruct (@AutoFixState_save_ok decimal_format "a" (state 1) ["gh"] ∅ _ []
              ltac:(unfold index_before; rewrite lookup_empty; reflexivity)
              eq_refl ltac:(constructor)) as (fs1 & Hsave1 & Hidx1).
  destruct (@AutoFixState_save_ok decimal_format "b" (state 2) ["gh"] fs1 _
              [AutoFixState.index_entry (state 1)]
              ltac:(unfold index_before; rewrite Hidx1; reflexivity)
              eq_refl ltac:(repeat constructor)) as (fs2 & Hsave2 & _).
  destruct (@X21_two_states_queued decimal_format "a" "b" (state 1) (state 2)
              ["gh"] ∅ fs1 fs2 Hsave1 Hsave2 eq_refl) as (qs & Hqs & Hin1 & Hin2).
  exists fs2, qs. rewrite Hsave1. cbn [mbind result_bind].
  repeat split; assumption.
Defined.

(** ** When decoding succeeds *)

Lemma traverse_ok_iff {A B} (f : A -> result B) (l : list A) :
  is_ok (traverse f l) = true <-> Forall (fun a => is_ok (f a) = true) l.
Proof.
  induction l as [|a l IH]; simpl.
  - split; [constructor | reflexivity].
  - destruct (f a) as [b|e] eqn:Ha; simpl.
    + destruct (traverse f l) as [bs|e]; simpl.
      * split; [| reflexivity]. intros _. constructor; [rewrite Ha; reflexivity |].
        apply IH. reflexivity.
      * split; [discriminate |]. intros Hall. inversion Hall as [|? ? _ Hl].
        apply IH in Hl. discriminate Hl.
    + split; [discriminate |]. intros Hall. inversion Hall as [|? ? Hfa _].
      rewrite Ha in Hfa. discriminate Hfa.
Qed.

(** X22.  The decoders check presence and enum membership and nothing
    else: a finding or a triage mapping is decoded exactly when every
    required key is present and every enum field holds a member's value;
    an auto-fix mapping when, besides, its ["status"], if any, is a
    member's value; a review mapping when, besides, its ["findings"], if
    any, can be iterated and every element is decoded as a finding.  The
    type of a field that is only passed through is never looked at. *)
Theorem X22_decode_succeeds_iff (now now' : string) (d : dict) :
  (is_ok (PRReviewFinding.from_dict (PDict d)) = true
   <-> first_fault PRReviewFinding_required d = None)
  /\ (is_ok (TriageResult.from_dict now (PDict d)) = true
      <-> first_fault TriageResult_required d = None)
  /\ (is_ok (AutoFixState.from_dict now now' (PDict d)) = true
      <-> first_fault AutoFixState_required d = None
          /\ is_member AutoFixStatus.call
               (default (PStr "pending") (Dict.get "status" d)) = true)
  /\ (is_ok (PRReviewResult.from_dict now (PDict d)) = true
      <-> first_fault PRReviewResult_required d = None
          /\ exists items,
               py_iter (default (PList []) (Dict.get "findings" d)) = Ok items
               /\ Forall (fun f => is_ok (PRReviewFinding.from_dict f) = true)
                    items).
Proof.
  split; [| split; [| split]].
  - destruct (first_fault PRReviewFinding_required d) as [f|] eqn:Hf.
    + rewrite (PRReviewFinding_fault d f Hf). split; discriminate.
    + split; [reflexivity | intros _]. revert Hf.
      unfold PRReviewFinding.from_dict, PRReviewFinding_required, py_getitem,
        py_get.
      cbn [first_fault mbind result_bind].
      repeat fault_step; try discriminate; reflexivity.
  - destruct (first_fault TriageResult_required d) as [f|] eqn:Hf.
    + rewrite (TriageResult_fault now d f Hf). split; discriminate.
    + split; [reflexivity | intros _]. revert Hf.
      unfold TriageResult.from_dict, TriageResult_required, py_getitem, py_get.
      cbn [first_fault mbind result_bind].
      repeat fault_step; try discriminate; reflexivity.
  - destruct (first_fault AutoFixState_required d) as [f|] eqn:Hf.
    + rewrite (AutoFixState_fault now now' d f Hf).
      split; [discriminate | intros [Hno _]; discriminate Hno].
    + revert Hf.
      unfold AutoFixState.from_dict, AutoFixState_required, py_getitem, py_get,
        is_member.
      cbn [first_fault mbind result_bind].
      destruct (Dict.get "issue_number" d); [| discriminate].
      destruct (Dict.get "issue_url" d); [| discriminate].
      destruct (Dict.get "repo" d); [| discriminate].
      intros _. cbn [mbind result_bind].
      destruct (AutoFixStatus.call _); cbn [mbind result_bind is_ok].
      * split; [intros _; split; reflexivity | reflexivity].
      * split; [discriminate | intros [_ Hbad]; discriminate Hbad].
  - destruct (first_fault PRReviewResult_required d) as [f|] eqn:Hf.
    + rewrite (PRReviewResult_fault now d f Hf).
      split; [discriminate | intros [Hno _]; discriminate Hno].
    + revert Hf.
      unfold PRReviewResult.from_dict, PRReviewResult_required, py_getitem,
        py_get.
      cbn [first_fault mbind result_bind].
      destruct (Dict.get "pr_number" d); [| discriminate].
      destruct (Dict.get "repo" d); [| discriminate].
      destruct (Dict.get "success" d); [| discriminate].
      intros _. cbn [mbind result_bind].
      destruct (py_iter _) as [items|e]; cbn [mbind result_bind].
      * destruct (traverse PRReviewFinding.from_dict items) as [fs|e] eqn:Htr;
          cbn [mbind result_bind is_ok].
        -- split; [| reflexivity]. intros _. split; [reflexivity |].
           exists items. split; [reflexivity |].
           apply traverse_ok_iff. rewrite Htr. reflexivity.
        -- split; [discriminate |]. intros [_ (items' & [= <-] & Hall)].
           apply traverse_ok_iff in Hall. rewrite Htr in Hall.
           discriminate Hall.
      * split; [discriminate |]. intros [_ (items & Hbad & _)].
        discriminate Hbad.
Qed.

(** A triage mapping whose fields all have the wrong types is decoded. *)
Example decode_ignores_types :
  TriageResult.from_dict "2024-01-01T00:00:00"
    (PDict [ ("issue_number", PStr "seven"); ("repo", PInt 3);
             ("category", PStr "spam"); ("confidence", PStr "high");
             ("labels_to_add", PNone) ])
  = Ok (TriageResult.mk (PStr "seven") (PInt 3) TriageCategory.SPAM
          (PStr "high") PNone (PList []) (PBool false) PNone (PBool false)
          (PBool false) (PList []) (PStr "medium") PNone
          (PStr "2024-01-01T00:00:00")).
Proof. reflexivity. Qed.
